(** * Vision MCP server: image acquisition, validation, transcoding and
      remote-analysis orchestration

    A shallow embedding of the TypeScript sources
    ([ImageProcessor], [OpenRouterService], [ImageAnalysisEntity],
    [AnalyzeImageUseCase], [ImageAnalysisController], [DomainErrors],
    [AppConfig]) together with the properties of their specification.

    Conventions of the embedding
    - a rejected promise / a [throw] is the [Throw] outcome of the [IO]
      monad, [try { } catch { }] is [try_catch];
    - the outside world (file system, HTTP transport, the sharp image
      library, the URL parser, the UUID generator, the clock) is a record
      of oracles [World]; what the code does to the world (HTTP requests,
      timers, aborts, UUID draws) is recorded in the [State];
    - JavaScript numbers that the code handles are integers and are
      modelled by [Z]; values whose TypeScript type is erased at run time
      (the parsed response body) are [JsVal];
    - calls to the logger only write to the console and are left out, and
      so are the functions no property is about ([convertToBase64],
      [detectMimeType], [isImagePath], the protocol server and the
      bootstrap). *)

From Stdlib Require Import ZArith List String Ascii Bool Lia.
From Stdlib Require Import DecimalString.
From Stdlib.Strings Require Byte.
Import ListNotations.

Set Warnings "-register-all".

Local Open Scope string_scope.
Local Open Scope Z_scope.

(** ** Strings *)

(** Template-literal interpolation of a number: [`${n}`]. *)
Definition string_of_Z (z : Z) : string := NilZero.string_of_int (Z.to_int z).

(** [hay.includes(needle)] *)
Fixpoint includes (needle hay : string) : bool :=
  String.prefix needle hay ||
  match hay with
  | EmptyString => false
  | String _ rest => includes needle rest
  end.

(** [arr.includes(s)] on an array of strings. *)
Definition array_includes (arr : list string) (s : string) : bool :=
  existsb (String.eqb s) arr.

(** ** Buffers and base64 *)

Definition Buffer : Type := list Byte.byte.

(** [buffer.length] *)
Definition buffer_length (b : Buffer) : Z := Z.of_nat (List.length b).

Definition base64_alphabet : string :=
  "ABCDEFGHIJKLMNOPQRSTUVWXYZabcdefghijklmnopqrstuvwxyz0123456789+/".

Definition base64_digit (n : N) : ascii :=
  match String.get (N.to_nat n) base64_alphabet with
  | Some c => c
  | None => "="%char
  end.

(** [buffer.toString('base64')]: three bytes become four digits, the tail
    is padded with [=]. *)
Fixpoint toString_base64 (b : Buffer) : string :=
  match b with
  | [] => ""
  | [x] =>
      let n := Byte.to_N x in
      String (base64_digit (n / 4))
        (String (base64_digit ((n mod 4) * 16)) "==")
  | [x; y] =>
      let n := Byte.to_N x in
      let m := Byte.to_N y in
      String (base64_digit (n / 4))
        (String (base64_digit ((n mod 4) * 16 + m / 16))
           (String (base64_digit ((m mod 16) * 4)) "="))
  | x :: y :: z :: rest =>
      let n := Byte.to_N x in
      let m := Byte.to_N y in
      let k := Byte.to_N z in
      String (base64_digit (n / 4))
        (String (base64_digit ((n mod 4) * 16 + m / 16))
           (String (base64_digit ((m mod 16) * 4 + k / 64))
              (String (base64_digit (k mod 64)) (toString_base64 rest))))
  end%N.

(** ** JavaScript values *)

(** A value as [JSON.parse] produces it, plus [undefined].  Number
    literals are integers: the code only tests numbers for being zero. *)
Inductive JsVal : Type :=
| JUndefined
| JNull
| JBool (b : bool)
| JNum (n : Z)
| JStr (s : string)
| JArr (items : list JsVal)
| JObj (fields : list (string * JsVal)).

(** [!!v] *)
Definition truthy (v : JsVal) : bool :=
  match v with
  | JUndefined | JNull => false
  | JBool b => b
  | JNum n => negb (n =? 0)
  | JStr s => negb (String.eqb s "")
  | JArr _ | JObj _ => true
  end.

Fixpoint lookup_field (k : string) (fields : list (string * JsVal)) : JsVal :=
  match fields with
  | [] => JUndefined
  | (k', v) :: rest => if String.eqb k k' then v else lookup_field k rest
  end.

Definition nullish (v : JsVal) : bool :=
  match v with
  | JUndefined | JNull => true
  | _ => false
  end.

(** [v[0]] on a value that is neither [null] nor [undefined]. *)
Definition js_first (v : JsVal) : JsVal :=
  match v with
  | JArr (x :: _) => x
  | JStr (String c _) => JStr (String c "")
  | JObj fields => lookup_field "0" fields
  | _ => JUndefined
  end.

(** [v.length] on a value that is neither [null] nor [undefined]. *)
Definition js_length (v : JsVal) : JsVal :=
  match v with
  | JArr items => JNum (Z.of_nat (List.length items))
  | JStr s => JNum (Z.of_nat (String.length s))
  | JObj fields => lookup_field "length" fields
  | _ => JUndefined
  end.

(** [v.k] for a property name [k] that is neither an index nor [length],
    on a value that is neither [null] nor [undefined]: only objects have
    such properties. *)
Definition js_prop (v : JsVal) (k : string) : JsVal :=
  match v with
  | JObj fields => lookup_field k fields
  | _ => JUndefined
  end.

(** [v?.k] *)
Definition js_optional_prop (v : JsVal) (k : string) : JsVal :=
  if nullish v then JUndefined else js_prop v k.

(** [a === b] against a number or string literal. *)
Definition strict_eq_num (v : JsVal) (n : Z) : bool :=
  match v with
  | JNum m => m =? n
  | _ => false
  end.

Definition strict_eq_str (v : JsVal) (s : string) : bool :=
  match v with
  | JStr t => String.eqb t s
  | _ => false
  end.

(** ** Thrown values and the domain errors (DomainErrors.ts) *)

Inductive ErrorClass : Type :=
| PlainError            (* Error, or a subclass that is no DomainError *)
| ImageProcessingError
| ImageAnalysisError
| UnsupportedModelError
| InvalidImageError
| ImageNotFoundError.

Definition ErrorClass_eqb (a b : ErrorClass) : bool :=
  match a, b with
  | PlainError, PlainError
  | ImageProcessingError, ImageProcessingError
  | ImageAnalysisError, ImageAnalysisError
  | UnsupportedModelError, UnsupportedModelError
  | InvalidImageError, InvalidImageError
  | ImageNotFoundError, ImageNotFoundError => true
  | _, _ => false
  end.

(** Anything that can be thrown: an [Error] object with its class, [name],
    [message], [stack] and optional [cause], or a value that is no
    [Error]. *)
Inductive Thrown : Type :=
| ErrorObject (cls : ErrorClass) (name message stack : string)
              (cause : option Thrown)
| NonError (v : JsVal).

(** [error instanceof C] for a domain class or [Error] itself. *)
Definition instanceof (e : Thrown) (c : ErrorClass) : bool :=
  match e with
  | ErrorObject cls _ _ _ _ => ErrorClass_eqb cls c
  | NonError _ => false
  end.

Definition instanceof_Error (e : Thrown) : bool :=
  match e with
  | ErrorObject _ _ _ _ _ => true
  | NonError _ => false
  end.

Definition error_message (e : Thrown) : string :=
  match e with
  | ErrorObject _ _ m _ _ => m
  | NonError _ => ""
  end.

Definition error_stack (e : Thrown) : option string :=
  match e with
  | ErrorObject _ _ _ s _ => Some s
  | NonError _ => None
  end.

Definition error_cause (e : Thrown) : option Thrown :=
  match e with
  | ErrorObject _ _ _ _ c => c
  | NonError _ => None
  end.

(** [error instanceof Error ? error.message : 'Unknown error'] *)
Definition message_or_unknown (e : Thrown) : string :=
  if instanceof_Error e then error_message e else "Unknown error".

(** [error instanceof Error ? error : undefined] *)
Definition as_cause (e : Thrown) : option Thrown :=
  if instanceof_Error e then Some e else None.

(** The stack the runtime captures at construction starts with the
    [name: message] line; the frames are not modelled. *)
Definition captured_stack (name message : string) : string :=
  name ++ ": " ++ message ++ "
    at <anonymous>".

(** [new Error(message)] *)
Definition new_Error (message : string) : Thrown :=
  ErrorObject PlainError "Error" message (captured_stack "Error" message) None.

Definition new_TypeError (message : string) : Thrown :=
  ErrorObject PlainError "TypeError" message
    (captured_stack "TypeError" message) None.

Module DomainErrors.

Definition class_name (c : ErrorClass) : string :=
  match c with
  | PlainError => "Error"
  | ImageProcessingError => "ImageProcessingError"
  | ImageAnalysisError => "ImageAnalysisError"
  | UnsupportedModelError => "UnsupportedModelError"
  | InvalidImageError => "InvalidImageError"
  | ImageNotFoundError => "ImageNotFoundError"
  end.

(** [readonly code] of each class. *)
Definition code (c : ErrorClass) : option string :=
  match c with
  | PlainError => None
  | ImageProcessingError => Some "IMAGE_PROCESSING_ERROR"
  | ImageAnalysisError => Some "IMAGE_ANALYSIS_ERROR"
  | UnsupportedModelError => Some "UNSUPPORTED_MODEL_ERROR"
  | InvalidImageError => Some "INVALID_IMAGE_ERROR"
  | ImageNotFoundError => Some "IMAGE_NOT_FOUND_ERROR"
  end.

(** The [DomainError] constructor: [super(message)], the name is the
    constructor's, the cause is kept. *)
Definition DomainError (c : ErrorClass) (message : string)
    (cause : option Thrown) : Thrown :=
  ErrorObject c (class_name c) message
    (captured_stack (class_name c) message) cause.

Definition new_ImageProcessingError (message : string)
    (cause : option Thrown) : Thrown :=
  DomainError ImageProcessingError
    ("Image processing failed: " ++ message) cause.

Definition new_ImageAnalysisError (message : string)
    (cause : option Thrown) : Thrown :=
  DomainError ImageAnalysisError
    ("Vision analysis failed: " ++ message) cause.

Definition new_UnsupportedModelError (model : string) : Thrown :=
  DomainError UnsupportedModelError
    ("Model '" ++ model ++ "' is not supported") None.

Definition new_InvalidImageError (reason : string) : Thrown :=
  DomainError InvalidImageError ("Invalid image: " ++ reason) None.

Definition new_ImageNotFoundError (source : string) : Thrown :=
  DomainError ImageNotFoundError ("Image not found: " ++ source) None.

End DomainErrors.
Import DomainErrors.

(** ** Outcomes, state and the [IO] monad *)

Inductive Result (A : Type) : Type :=
| Ok (a : A)
| Throw (e : Thrown).
Arguments Ok {A} a.
Arguments Throw {A} e.

(** An HTTP request as handed to [fetch].  [body] is the value given to
    [JSON.stringify]. *)
Record Request : Type := {
  method : string;
  url : string;
  headers : list (string * string);
  body : option JsVal
}.

(** An HTTP response as [fetch] resolves it; reading the body may fail. *)
Record Response : Type := {
  ok : bool;
  status : Z;
  statusText : string;
  text : Result string;
  json : Result JsVal;
  arrayBuffer : Result Buffer
}.

(** What the code does to the outside world. *)
Inductive Event : Type :=
| EvFetch (r : Request)          (* fetch(url, init) is called *)
| EvSetTimeout (ms : Z)          (* setTimeout(() => controller.abort(), ms) *)
| EvAbort                        (* the timer fired: controller.abort() *)
| EvClearTimeout.                (* clearTimeout(timeoutId) *)

Record State : Type := {
  trace : list Event;            (* events so far, oldest first *)
  uuids : nat                    (* number of crypto.randomUUID() draws *)
}.

Definition IO (A : Type) : Type := State -> Result A * State.

Definition ret {A} (a : A) : IO A := fun s => (Ok a, s).

Definition throw {A} (e : Thrown) : IO A := fun s => (Throw e, s).

Definition bind {A B} (c : IO A) (k : A -> IO B) : IO B :=
  fun s =>
    match c s with
    | (Ok a, s') => k a s'
    | (Throw e, s') => (Throw e, s')
    end.

(** [try { body } catch (error) { handler }]: the effects of the body
    stay. *)
Definition try_catch {A} (body : IO A) (handler : Thrown -> IO A) : IO A :=
  fun s =>
    match body s with
    | (Ok a, s') => (Ok a, s')
    | (Throw e, s') => handler e s'
    end.

(** [await] of an already settled outcome. *)
Definition settle {A} (r : Result A) : IO A := fun s => (r, s).

Definition emit (ev : Event) : IO unit :=
  fun s => (Ok tt, {| trace := trace s ++ [ev]; uuids := uuids s |}).

Declare Scope io_scope.
Delimit Scope io_scope with io.
Notation "x <- c ;; k" := (bind c (fun x => k))
  (at level 61, c at next level, right associativity) : io_scope.
Notation "c ;;; k" := (bind c (fun _ => k))
  (at level 61, right associativity) : io_scope.
Local Open Scope io_scope.

Definition initial_state : State := {| trace := []; uuids := 0 |}.

(** The HTTP requests of a trace. *)
Fixpoint requests (t : list Event) : list Request :=
  match t with
  | [] => []
  | EvFetch r :: rest => r :: requests rest
  | _ :: rest => requests rest
  end.

(** ** Configuration (AppConfig.ts) *)

Record OpenRouterConfig : Type := {
  apiKey : string;
  baseUrl : string;
  defaultModel : string;
  timeout : Z;
  maxTokens : Z;
  httpReferer : string
}.

Record ImageConfig : Type := {
  maxSizeBytes : Z;
  supportedFormats : list string;
  quality : Z
}.

Record AppConfig : Type := {
  openRouter : OpenRouterConfig;
  image : ImageConfig
}.

(** [defaultConfig] when, apart from the API key, no environment variable
    overrides a default: every [process.env.X || d] is [d], and [parseInt]
    of the decimal literals gives the numbers below. *)
Definition defaultConfig (OPENROUTER_API_KEY : string) : AppConfig := {|
  openRouter := {|
    apiKey := OPENROUTER_API_KEY;
    baseUrl := "https://openrouter.ai/api/v1";
    defaultModel := "anthropic/claude-3.5-sonnet";
    timeout := 30000;
    maxTokens := 1000;
    httpReferer := "https://github.com/TheNomadInOrbit/vision-mcp-server"
  |};
  image := {|
    maxSizeBytes := 10485760;
    supportedFormats := ["jpg"; "jpeg"; "png"; "gif"; "bmp"; "webp"];
    quality := 85
  |}
|}.

(** ** The sharp image library, as the code uses it

    sharp is an external library.  Its decoder and encoders are oracles of
    the [World]; the geometry of [resize] is written out below after the
    library's documented behaviour, in exact rational arithmetic. *)

Module Sharp.

(** What [sharp(data).metadata()] surfaces; every field may be absent. *)
Record Metadata : Type := {
  format : option string;
  width : option Z;
  height : option Z;
  hasAlpha : option bool;
  space : option string;
  density : option Z
}.

(** The three shapes of [resize] call in the sources. *)
Inductive Resize : Type :=
| ResizeWidth (w : Z)                     (* .resize({ width: w }) *)
| ResizeHeight (h : Z)                    (* .resize({ height: h }) *)
| ResizeInside (maxWidth maxHeight : option Z).
    (* .resize(maxWidth, maxHeight,
               { fit: 'inside', withoutEnlargement: true }) *)

Inductive Encoder : Type :=
| jpeg (quality : Z) (progressive : bool)
| png (compressionLevel : Z) (progressive : bool)
| webp (quality : Z).

(** A chain [sharp(data).resize(..).jpeg(..)] before [toBuffer()].
    Without an encoder the output keeps the input format. *)
Record Pipeline : Type := {
  resize : option Resize;
  encoder : option Encoder
}.

Definition encoder_format (e : Encoder) : string :=
  match e with
  | jpeg _ _ => "jpeg"
  | png _ _ => "png"
  | webp _ => "webp"
  end.

(** A shrink factor [n / d], both positive. *)
Definition Shrink : Type := (Z * Z)%type.

Definition shrink_ltb (a b : Shrink) : bool :=
  fst a * snd b <? fst b * snd a.

Definition shrink_max (a b : Shrink) : Shrink :=
  if shrink_ltb a b then b else a.

Definition shrink_min (a b : Shrink) : Shrink :=
  if shrink_ltb a b then a else b.

(** Horizontal and vertical shrink factors of a [w] by [h] image.
    A single target dimension fixes one factor and the other follows it
    (aspect ratio kept); with both targets and fit [inside] the larger
    factor is used for both; [withoutEnlargement] keeps the factors at
    1 or more; no axis is shrunk below one pixel. *)
Definition resolveShrink (r : Resize) (w h : Z) : Shrink * Shrink :=
  let unbounded :=
    match r with
    | ResizeWidth tw => ((w, tw), (w, tw))
    | ResizeHeight th => ((h, th), (h, th))
    | ResizeInside (Some tw) (Some th) =>
        let s := shrink_max (w, tw) (h, th) in
        (shrink_max (1, 1) s, shrink_max (1, 1) s)
    | ResizeInside (Some tw) None =>
        (shrink_max (1, 1) (w, tw), shrink_max (1, 1) (w, tw))
    | ResizeInside None (Some th) =>
        (shrink_max (1, 1) (h, th), shrink_max (1, 1) (h, th))
    | ResizeInside None None => ((1, 1), (1, 1))
    end in
  (shrink_min (fst unbounded) (w, 1), shrink_min (snd unbounded) (h, 1)).

(** [x] divided by the shrink factor, rounded to the nearest pixel. *)
Definition scaled (x : Z) (s : Shrink) : Z :=
  (2 * x * snd s + fst s) / (2 * fst s).

Definition resized (r : Resize) (w h : Z) : Z * Z :=
  let s := resolveShrink r w h in
  (scaled w (fst s), scaled h (snd s)).

(** Dimensions of the output of a pipeline on a [w] by [h] input. *)
Definition output_dims (p : Pipeline) (w h : Z) : Z * Z :=
  match resize p with
  | Some r => resized r w h
  | None => (w, h)
  end.

Definition output_format (p : Pipeline) (input : option string)
  : option string :=
  match encoder p with
  | Some e => Some (encoder_format e)
  | None => input
  end.

(** [resize] rejects a dimension that is given but is no positive
    integer, before any pixel is touched. *)
Definition valid_dimension (d : option Z) : bool :=
  match d with
  | Some n => 0 <? n
  | None => true
  end.

End Sharp.

(** ** The outside world *)

Record World : Type := {
  (** [new URL(s).protocol], [None] when the constructor throws *)
  URL_protocol : string -> option string;
  (** [fs.access(path)] *)
  fs_access : string -> Result unit;
  (** [readFileSync(path)] *)
  readFileSync : string -> Result Buffer;
  (** [path.resolve(path)] *)
  path_resolve : string -> string;
  (** the network: after how many milliseconds [fetch] settles for a
      request, and how, when nobody aborts it *)
  network : Request -> Z * Result Response;
  (** [sharp(data).metadata()] *)
  sharp_metadata : Buffer -> Result Sharp.Metadata;
  (** [sharp(data). ... .toBuffer()] *)
  sharp_toBuffer : Sharp.Pipeline -> Buffer -> Result Buffer;
  (** the [n]-th value of [crypto.randomUUID()] *)
  randomUUID : nat -> string;
  (** [new Date()] *)
  Date_now : Z
}.

(** Node's error for a failed file-system call, e.g.
    [ENOENT: no such file or directory, access 'x']. *)
Definition fs_error (code description syscall path : string) : Thrown :=
  new_Error (code ++ ": " ++ description ++ ", " ++ syscall ++ " '" ++ path ++ "'").

Definition ENOENT (syscall path : string) : Thrown :=
  fs_error "ENOENT" "no such file or directory" syscall path.

Definition EACCES (syscall path : string) : Thrown :=
  fs_error "EACCES" "permission denied" syscall path.

(** The rejection of an aborted [fetch]. *)
Definition AbortError : Thrown :=
  ErrorObject PlainError "AbortError" "The operation was aborted."
    (captured_stack "AbortError" "The operation was aborted.") None.

(** Behaviour of sharp that the properties rely on. *)

(** sharp refuses an empty input buffer. *)
Definition sharp_rejects_empty (W : World) : Prop :=
  exists e, sharp_metadata W [] = Throw e.

(** The output of a pipeline decodes again, with the dimensions and the
    format the pipeline asked for. *)
Definition sharp_output_faithful (W : World) : Prop :=
  forall p data out m w h,
    sharp_metadata W data = Ok m ->
    Sharp.width m = Some w ->
    Sharp.height m = Some h ->
    sharp_toBuffer W p data = Ok out ->
    exists m',
      sharp_metadata W out = Ok m' /\
      Sharp.width m' = Some (fst (Sharp.output_dims p w h)) /\
      Sharp.height m' = Some (snd (Sharp.output_dims p w h)) /\
      Sharp.format m' = Sharp.output_format p (Sharp.format m).

(** Successive UUIDs differ. *)
Definition uuids_distinct (W : World) : Prop :=
  forall i j, randomUUID W i = randomUUID W j -> i = j.

(** ** Domain entities (ImageAnalysis.ts) *)

Module ImageMetadata.
Record t : Type := {
  width : option Z;
  height : option Z;
  format : option string;
  size : option Z;
  hasAlpha : option bool;
  colorSpace : option string;
  density : option Z
}.
End ImageMetadata.

Inductive SourceType : Type := file | url_.

Module ImageSource.
Record t : Type := {
  type : SourceType;
  path : option string;
  data : option Buffer;
  url : option string;
  metadata : option ImageMetadata.t
}.
End ImageSource.

Module ImageAnalysis.
(** The TypeScript types of [id], [analysis] and [usage] are not checked
    at run time: the fields hold whatever the response body held. *)
Record t : Type := {
  id : JsVal;
  imageSource : ImageSource.t;
  model : string;
  analysis : JsVal;
  timestamp : Z;
  metadata : option ImageMetadata.t;
  usage : JsVal
}.
End ImageAnalysis.

(** [crypto.randomUUID()] *)
Definition crypto_randomUUID (W : World) : IO string :=
  fun s => (Ok (randomUUID W (uuids s)),
            {| trace := trace s; uuids := S (uuids s) |}).

Module ImageAnalysisEntity.

(** [ImageAnalysisEntity.create]: [id || crypto.randomUUID()],
    [new Date()]. *)
Definition create (W : World) (imageSource : ImageSource.t)
    (model : string) (analysis : JsVal)
    (metadata : option ImageMetadata.t) (usage : JsVal) (id : JsVal)
  : IO ImageAnalysis.t :=
  id' <- (if truthy id then ret id
          else (u <- crypto_randomUUID W ;; ret (JStr u))) ;;
  ret {| ImageAnalysis.id := id';
         ImageAnalysis.imageSource := imageSource;
         ImageAnalysis.model := model;
         ImageAnalysis.analysis := analysis;
         ImageAnalysis.timestamp := Date_now W;
         ImageAnalysis.metadata := metadata;
         ImageAnalysis.usage := usage |}.

End ImageAnalysisEntity.

(** ** JavaScript coercions on optional numbers and strings *)

(** [!!n] for [n : number | undefined] *)
Definition truthy_num (n : option Z) : bool :=
  match n with
  | Some k => negb (k =? 0)
  | None => false
  end.

(** [!!s] for [s : string | undefined] *)
Definition truthy_str (s : option string) : bool :=
  match s with
  | Some t => negb (String.eqb t "")
  | None => false
  end.

(** [n || d] *)
Definition num_or (n : option Z) (d : Z) : Z :=
  match n with
  | Some k => if k =? 0 then d else k
  | None => d
  end.

(** [s || d] *)
Definition str_or (s : option string) (d : string) : string :=
  match s with
  | Some t => if String.eqb t "" then d else t
  | None => d
  end.

(** [n || undefined] *)
Definition num_or_undefined (n : option Z) : option Z :=
  match n with
  | Some k => if k =? 0 then None else Some k
  | None => None
  end.

(** [b || false] *)
Definition bool_or_false (b : option bool) : bool :=
  match b with
  | Some c => c
  | None => false
  end.

(** ** ImageProcessor *)

Module ImageProcessor.
Section WithWorld.

Variable W : World.
Variable config : AppConfig.

Definition isUrl (source : string) : bool :=
  match URL_protocol W source with
  | Some protocol => String.eqb protocol "http:" || String.eqb protocol "https:"
  | None => false
  end.

Definition validateImage (imageData : Buffer) : IO bool :=
  try_catch
    (metadata <- settle (sharp_metadata W imageData) ;;
     (* Check if it's a valid image format *)
     if negb (truthy_str (Sharp.format metadata))
        || negb (array_includes (supportedFormats (image config))
                   (str_or (Sharp.format metadata) ""))
     then ret false
     (* Check file size *)
     else if maxSizeBytes (image config) <? buffer_length imageData
     then ret false
     (* Check dimensions *)
     else if negb (truthy_num (Sharp.width metadata))
             || negb (truthy_num (Sharp.height metadata))
             || (num_or (Sharp.width metadata) 0 <? 1)
             || (num_or (Sharp.height metadata) 0 <? 1)
     then ret false
     else ret true)
    (fun _ => ret false).

Definition extractMetadata (imageData : Buffer) : IO ImageMetadata.t :=
  try_catch
    (metadata <- settle (sharp_metadata W imageData) ;;
     ret {| ImageMetadata.width := Some (num_or (Sharp.width metadata) 0);
            ImageMetadata.height := Some (num_or (Sharp.height metadata) 0);
            ImageMetadata.format :=
              Some (str_or (Sharp.format metadata) "unknown");
            ImageMetadata.size := Some (buffer_length imageData);
            ImageMetadata.hasAlpha :=
              Some (bool_or_false (Sharp.hasAlpha metadata));
            ImageMetadata.colorSpace :=
              Some (str_or (Sharp.space metadata) "unknown");
            ImageMetadata.density :=
              num_or_undefined (Sharp.density metadata) |})
    (fun error =>
       throw (new_ImageProcessingError "Failed to extract image metadata"
                (as_cause error))).

(** The check [resize(width, height, options)] makes on its arguments. *)
Definition sharp_resize (maxWidth maxHeight : option Z)
  : IO Sharp.Resize :=
  if negb (Sharp.valid_dimension maxWidth) then
    throw (new_Error ("Expected positive integer for width but received "
                        ++ string_of_Z (num_or maxWidth 0)
                        ++ " of type number"))
  else if negb (Sharp.valid_dimension maxHeight) then
    throw (new_Error ("Expected positive integer for height but received "
                        ++ string_of_Z (num_or maxHeight 0)
                        ++ " of type number"))
  else ret (Sharp.ResizeInside maxWidth maxHeight).

(** The [switch (metadata.format)] of [optimizeImage]: the encoder each
    case applies before [toBuffer()]; the default case applies none. *)
Definition format_encoder (format : option string)
  : option Sharp.Encoder :=
  match format with
  | Some f =>
      if String.eqb f "jpeg"
      then Some (Sharp.jpeg (quality (image config)) true)
      else if String.eqb f "png"
      then Some (Sharp.png 9 true)
      else if String.eqb f "webp"
      then Some (Sharp.webp (quality (image config)))
      else None
  | None => None
  end.

Definition optimizeImage (imageData : Buffer)
    (maxWidth maxHeight : option Z) : IO Buffer :=
  try_catch
    ((* Resize if dimensions are specified *)
     resize <- (if truthy_num maxWidth || truthy_num maxHeight
                then (r <- sharp_resize maxWidth maxHeight ;; ret (Some r))
                else ret None) ;;
     (* Apply quality optimization *)
     metadata <- settle (sharp_metadata W imageData) ;;
     settle (sharp_toBuffer W
               {| Sharp.resize := resize;
                  Sharp.encoder := format_encoder (Sharp.format metadata) |}
               imageData))
    (fun error =>
       throw (new_ImageProcessingError "Failed to optimize image"
                (as_cause error))).

Definition loadFromFile (filePath : string) : IO ImageSource.t :=
  try_catch
    ((* Check if file exists *)
     settle (fs_access W filePath) ;;;
     (* Read file *)
     data <- settle (readFileSync W filePath) ;;
     (* Validate image *)
     valid <- validateImage data ;;
     (if negb valid
      then throw (new_InvalidImageError ("Invalid image file: " ++ filePath))
      else ret tt) ;;;
     metadata <- extractMetadata data ;;
     ret {| ImageSource.type := file;
            ImageSource.path := Some (path_resolve W filePath);
            ImageSource.data := Some data;
            ImageSource.url := None;
            ImageSource.metadata := Some metadata |})
    (fun error =>
       if instanceof_Error error && includes "ENOENT" (error_message error)
       then throw (new_ImageNotFoundError ("File not found: " ++ filePath))
       else if instanceof error InvalidImageError
       then throw error
       else throw (new_ImageProcessingError
                     ("Failed to load file: " ++ filePath) (as_cause error))).

(** [fetch(url)]: a GET without headers, body or abort signal. *)
Definition get_request (target : string) : Request :=
  {| method := "GET"; url := target; headers := []; body := None |}.

Definition loadFromUrl (target : string) : IO ImageSource.t :=
  try_catch
    (emit (EvFetch (get_request target)) ;;;
     response <- settle (snd (network W (get_request target))) ;;
     (if negb (ok response)
      then throw (new_Error ("HTTP " ++ string_of_Z (status response)
                               ++ ": " ++ statusText response))
      else ret tt) ;;;
     data <- settle (arrayBuffer response) ;;
     (* Validate image *)
     valid <- validateImage data ;;
     (if negb valid
      then throw (new_InvalidImageError ("Invalid image from URL: " ++ target))
      else ret tt) ;;;
     metadata <- extractMetadata data ;;
     ret {| ImageSource.type := url_;
            ImageSource.path := Some target;
            ImageSource.data := Some data;
            ImageSource.url := None;
            ImageSource.metadata := Some metadata |})
    (fun error =>
       if instanceof error InvalidImageError
       then throw error
       else throw (new_ImageProcessingError
                     ("Failed to load image from URL: " ++ target)
                     (as_cause error))).

Definition loadImage (source : string) : IO ImageSource.t :=
  try_catch
    (if isUrl source then loadFromUrl source else loadFromFile source)
    (fun error =>
       if instanceof error ImageNotFoundError
          || instanceof error InvalidImageError
       then throw error
       else throw (new_ImageProcessingError
                     ("Failed to load image from source: " ++ source)
                     (as_cause error))).

End WithWorld.
End ImageProcessor.

(** ** OpenRouterService *)

Module OpenRouterService.
Section WithWorld.

Variable W : World.
Variable config : AppConfig.

Definition MAX_DIMENSION : Z := 1024.
Definition JPEG_QUALITY : Z := 80.

(** The pipelines of [prepareImageForAPI]. *)
Definition recompress_only : Sharp.Pipeline :=
  {| Sharp.resize := None;
     Sharp.encoder := Some (Sharp.jpeg JPEG_QUALITY false) |}.

Definition resize_and_recompress (r : Sharp.Resize) : Sharp.Pipeline :=
  {| Sharp.resize := Some r;
     Sharp.encoder := Some (Sharp.jpeg JPEG_QUALITY false) |}.

Definition prepareImageForAPI (imageSource : ImageSource.t) : IO string :=
  match ImageSource.data imageSource with
  | None =>
      throw (new_ImageAnalysisError "Image data is required for analysis" None)
  | Some data =>
      (* Get image metadata *)
      metadata <- settle (sharp_metadata W data) ;;
      resizedBuffer <-
        (if truthy_num (Sharp.width metadata)
            && truthy_num (Sharp.height metadata)
         then
           let width := num_or (Sharp.width metadata) 0 in
           let height := num_or (Sharp.height metadata) 0 in
           let largerDimension := Z.max width height in
           if MAX_DIMENSION <? largerDimension then
             let resizeOptions :=
               if height <? width
               then Sharp.ResizeWidth MAX_DIMENSION
               else Sharp.ResizeHeight MAX_DIMENSION in
             settle (sharp_toBuffer W (resize_and_recompress resizeOptions) data)
           else
             settle (sharp_toBuffer W recompress_only data)
         else ret data) ;;
      ret ("data:image/jpeg;base64," ++ toString_base64 resizedBuffer)
  end.

Definition requestBody (base64Image prompt model : string) : JsVal :=
  JObj [
    ("model", JStr model);
    ("messages", JArr [
       JObj [
         ("role", JStr "user");
         ("content", JArr [
            JObj [("type", JStr "text"); ("text", JStr prompt)];
            JObj [("type", JStr "image_url");
                  ("image_url", JObj [("url", JStr base64Image)])]
          ])
       ]
     ]);
    ("max_tokens", JNum 1000)
  ].

Definition apiRequest (base64Image prompt model : string) : Request :=
  {| method := "POST";
     url := baseUrl (openRouter config) ++ "/chat/completions";
     headers := [
       ("Authorization", "Bearer " ++ apiKey (openRouter config));
       ("Content-Type", "application/json");
       ("HTTP-Referer", httpReferer (openRouter config));
       ("X-Title", "Vision MCP Server")
     ];
     body := Some (requestBody base64Image prompt model) |}.

(** [fetch(url, { ..., signal })] while the abort timer of [ms]
    milliseconds is armed: when the network has not settled by then the
    timer fires, the controller aborts and [fetch] rejects with an
    [AbortError]. *)
Definition fetch_with_signal (request : Request) (ms : Z) : IO Response :=
  emit (EvFetch request) ;;;
  let (latency, outcome) := network W request in
  if ms <? latency
  then (emit EvAbort ;;; throw AbortError)
  else settle outcome.

(** [error.name] in the untyped [catch (error: any)]. *)
Definition thrown_name (error : Thrown) : IO JsVal :=
  match error with
  | ErrorObject _ name _ _ _ => ret (JStr name)
  | NonError v =>
      if nullish v
      then throw (new_TypeError "Cannot read properties of undefined (reading 'name')")
      else ret (js_prop v "name")
  end.

(** [data.choices] on the parsed body. *)
Definition get_choices (data : JsVal) : IO JsVal :=
  if nullish data
  then throw (new_TypeError "Cannot read properties of null (reading 'choices')")
  else ret (js_prop data "choices").

Definition callOpenRouterAPI (base64Image prompt model : string)
  : IO JsVal :=
  (* Create AbortController for timeout *)
  emit (EvSetTimeout (timeout (openRouter config))) ;;;
  try_catch
    (response <- fetch_with_signal (apiRequest base64Image prompt model)
                   (timeout (openRouter config)) ;;
     emit EvClearTimeout ;;;
     (if negb (ok response)
      then (errorText <- settle (text response) ;;
            throw (new_Error ("OpenRouter API error ("
                                ++ string_of_Z (status response)
                                ++ "): " ++ errorText)))
      else ret tt) ;;;
     data <- settle (json response) ;;
     choices <- get_choices data ;;
     (if negb (truthy choices) || strict_eq_num (js_length choices) 0
      then throw (new_Error "No choices returned from OpenRouter API")
      else ret tt) ;;;
     ret data)
    (fun error =>
       emit EvClearTimeout ;;;
       name <- thrown_name error ;;
       if strict_eq_str name "AbortError"
       then throw (new_Error ("Request timeout after "
                                ++ string_of_Z (timeout (openRouter config))
                                ++ "ms"))
       else throw error).

Definition default_prompt : string :=
  "Analyze this image and describe what you see in detail.".

(** [response.choices[0]?.message?.content] *)
Definition first_choice_content (response : JsVal) : JsVal :=
  js_optional_prop
    (js_optional_prop (js_first (js_prop response "choices")) "message")
    "content".

Definition analyzeImage (imageSource : ImageSource.t)
    (model prompt : option string) : IO ImageAnalysis.t :=
  let selectedModel := str_or model (defaultModel (openRouter config)) in
  try_catch
    (base64Image <- prepareImageForAPI imageSource ;;
     let analysisPrompt := str_or prompt default_prompt in
     response <- callOpenRouterAPI base64Image analysisPrompt selectedModel ;;
     let analysis := first_choice_content response in
     (if negb (truthy analysis)
      then throw (new_ImageAnalysisError
                    "No analysis content received from API" None)
      else ret tt) ;;;
     ImageAnalysisEntity.create W imageSource selectedModel analysis None
       (js_prop response "usage") (js_prop response "id"))
    (fun error =>
       if instanceof error ImageAnalysisError
       then throw error
       else throw (new_ImageAnalysisError
                     ("OpenRouter API call failed: " ++ message_or_unknown error)
                     (as_cause error))).

Definition getDefaultModel : string := defaultModel (openRouter config).

End WithWorld.
End OpenRouterService.

(** ** AnalyzeImageUseCase *)

(** The members of [IImageProcessor] and [IImageAnalysisService] that the
    use case calls. *)
Record IImageProcessor : Type := {
  loadImage : string -> IO ImageSource.t;
  validateImage : Buffer -> IO bool
}.

Record IImageAnalysisService : Type := {
  analyzeImage :
    ImageSource.t -> option string -> option string -> IO ImageAnalysis.t;
  getDefaultModel : string
}.

Definition the_ImageProcessor (W : World) (config : AppConfig)
  : IImageProcessor :=
  {| loadImage := ImageProcessor.loadImage W config;
     validateImage := ImageProcessor.validateImage W config |}.

Definition the_OpenRouterService (W : World) (config : AppConfig)
  : IImageAnalysisService :=
  {| analyzeImage := OpenRouterService.analyzeImage W config;
     getDefaultModel := OpenRouterService.getDefaultModel config |}.

Module AnalyzeImageUseCase.
Section WithCollaborators.

Variable imageProcessor : IImageProcessor.
Variable imageAnalysisService : IImageAnalysisService.

Definition execute (source : string) (model prompt : option string)
  : IO ImageAnalysis.t :=
  try_catch
    ((* Load and validate image *)
     imageSource <- loadImage imageProcessor source ;;
     match ImageSource.data imageSource with
     | None => throw (new_ImageProcessingError "Failed to load image data" None)
     | Some data =>
         (* Validate image format and size *)
         isValid <- validateImage imageProcessor data ;;
         (if negb isValid
          then throw (new_ImageProcessingError
                        "Invalid image format or size" None)
          else ret tt) ;;;
         (* Perform analysis *)
         analyzeImage imageAnalysisService imageSource model prompt
     end)
    (fun error =>
       if instanceof error ImageProcessingError
          || instanceof error ImageAnalysisError
       then throw error
       else throw (new_ImageAnalysisError
                     "Unexpected error during vision analysis"
                     (as_cause error))).

End WithCollaborators.
End AnalyzeImageUseCase.

(** ** ImageAnalysisController *)

Module ImageAnalysisController.

Record AnalyzeImageRequest : Type := {
  source : string;
  model : option string;
  prompt : option string
}.

(** The [details] object of an error response. *)
Inductive Details : Type :=
| DetailsCause (cause : option string)      (* { cause: ... } *)
| DetailsOriginalError (originalError : string).

Record ErrorBody : Type := {
  code : string;
  message : string;
  details : option Details
}.

Record ResponseData : Type := {
  id : JsVal;
  analysis : JsVal;
  model_used : string;
  timestamp : Z;
  metadata : option ImageMetadata.t;
  source_type : SourceType;
  source_path : option string;
  usage : JsVal
}.

Inductive ImageAnalysisResult : Type :=
| Success (data : ResponseData)             (* success: true *)
| Failure (error : ErrorBody).              (* success: false *)

Definition createErrorResponse (code message : string)
    (details : option Details) : ImageAnalysisResult :=
  Failure {| code := code; message := message; details := details |}.

(** [error.cause?.message]; the cause of a domain error is an [Error]
    or absent. *)
Definition cause_message (error : Thrown) : option string :=
  match error_cause error with
  | Some (ErrorObject _ _ m _ _) => Some m
  | _ => None
  end.

Definition handleError (error : Thrown) : ImageAnalysisResult :=
  if instanceof error ImageNotFoundError then
    createErrorResponse "IMAGE_NOT_FOUND" (error_message error) None
  else if instanceof error InvalidImageError then
    createErrorResponse "INVALID_IMAGE" (error_message error) None
  else if instanceof error ImageProcessingError then
    createErrorResponse "IMAGE_PROCESSING_ERROR" (error_message error)
      (Some (DetailsCause (cause_message error)))
  else if instanceof error ImageAnalysisError then
    createErrorResponse "ANALYSIS_ERROR" (error_message error)
      (Some (DetailsCause (cause_message error)))
  else
    (* Generic error *)
    createErrorResponse "INTERNAL_ERROR"
      "An unexpected error occurred during vision analysis"
      (Some (DetailsOriginalError (message_or_unknown error))).

Section WithUseCase.

Variable imageProcessor : IImageProcessor.
Variable imageAnalysisService : IImageAnalysisService.

Definition analyzeImage (request : AnalyzeImageRequest)
  : IO ImageAnalysisResult :=
  try_catch
    ((* Validate request *)
     if String.eqb (source request) "" then
       ret (createErrorResponse "INVALID_REQUEST"
              "Image source is required" None)
     else
       (* Execute use case *)
       result <- AnalyzeImageUseCase.execute imageProcessor
                   imageAnalysisService (source request)
                   (model request) (prompt request) ;;
       ret (Success {|
         id := ImageAnalysis.id result;
         analysis := ImageAnalysis.analysis result;
         model_used := ImageAnalysis.model result;
         timestamp := ImageAnalysis.timestamp result;
         metadata :=
           ImageSource.metadata (ImageAnalysis.imageSource result);
         source_type :=
           ImageSource.type (ImageAnalysis.imageSource result);
         source_path :=
           ImageSource.path (ImageAnalysis.imageSource result);
         usage := ImageAnalysis.usage result |}))
    (fun error => ret (handleError error)).

End WithUseCase.

End ImageAnalysisController.

(** ** A small concrete world

    Used to run the code on explicit inputs.  Its image codec is a toy
    container: a format byte followed by one [01] byte per pixel of width
    and one [02] byte per pixel of height. *)

Module Toy.

Definition count_byte (b : Byte.byte) (l : Buffer) : Z :=
  Z.of_nat (List.length (filter (Byte.eqb b) l)).

Definition format_of_code (c : Byte.byte) : option string :=
  match c with
  | Byte.xff => Some "jpeg"
  | Byte.x89 => Some "png"
  | Byte.x47 => Some "gif"
  | Byte.x42 => Some "bmp"
  | Byte.x52 => Some "webp"
  | Byte.x49 => Some "tiff"
  | _ => None
  end.

Definition code_of_encoder (e : Sharp.Encoder) : Byte.byte :=
  match e with
  | Sharp.jpeg _ _ => Byte.xff
  | Sharp.png _ _ => Byte.x89
  | Sharp.webp _ => Byte.x52
  end.

Definition encode (c : Byte.byte) (w h : Z) : Buffer :=
  c :: repeat Byte.x01 (Z.to_nat w) ++ repeat Byte.x02 (Z.to_nat h).

(** A buffer starting with [00] decodes, but nothing is surfaced. *)
Definition metadata (data : Buffer) : Result Sharp.Metadata :=
  match data with
  | [] => Throw (new_Error "Input Buffer is empty")
  | c :: rest =>
      match format_of_code c with
      | Some f =>
          Ok {| Sharp.format := Some f;
                Sharp.width := Some (count_byte Byte.x01 rest);
                Sharp.height := Some (count_byte Byte.x02 rest);
                Sharp.hasAlpha := Some false;
                Sharp.space := Some "srgb";
                Sharp.density := Some 72 |}
      | None =>
          if Byte.eqb c Byte.x00
          then Ok {| Sharp.format := None; Sharp.width := None;
                     Sharp.height := None; Sharp.hasAlpha := None;
                     Sharp.space := None; Sharp.density := None |}
          else Throw (new_Error
                        "Input buffer contains unsupported image format")
      end
  end.

Definition toBuffer (p : Sharp.Pipeline) (data : Buffer) : Result Buffer :=
  match data with
  | c :: rest =>
      match format_of_code c with
      | Some _ =>
          let d := Sharp.output_dims p (count_byte Byte.x01 rest)
                     (count_byte Byte.x02 rest) in
          if (fst d <? 1) || (snd d <? 1)
          then Throw (new_Error "Output image is empty")
          else Ok (encode (match Sharp.encoder p with
                           | Some e => code_of_encoder e
                           | None => c
                           end) (fst d) (snd d))
      | None =>
          Throw (new_Error "Input buffer contains unsupported image format")
      end
  | [] => Throw (new_Error "Input Buffer is empty")
  end.

(** The bytes of the text [{"a":1}]. *)
Definition json_bytes : Buffer :=
  [Byte.x7b; Byte.x22; Byte.x61; Byte.x22; Byte.x3a; Byte.x31; Byte.x7d].

Definition files (path : string) : option Buffer :=
  if String.eqb path "local.jpg" then Some (encode Byte.xff 2000 1000)
  else if String.eqb path "small.png" then Some (encode Byte.x89 3 2)
  else if String.eqb path "notes.json" then Some json_bytes
  else if String.eqb path "/tmp/ENOENT.json" then Some json_bytes
  else None.

Definition protocol (s : string) : option string :=
  if String.prefix "http://" s then Some "http:"
  else if String.prefix "https://" s then Some "https:"
  else None.

Definition http (ok : bool) (status : Z) (statusText : string)
    (text : string) (json : Result JsVal) (bytes : Buffer) : Response :=
  {| ok := ok; status := status; statusText := statusText;
     text := Ok text; json := json; arrayBuffer := Ok bytes |}.

Definition SyntaxError : Thrown :=
  ErrorObject PlainError "SyntaxError" "Unexpected token < in JSON"
    (captured_stack "SyntaxError" "Unexpected token < in JSON") None.

Definition answer (fields : list (string * JsVal)) : Result JsVal :=
  Ok (JObj (fields ++ [("choices", JArr [JObj [("message",
              JObj [("content", JStr "A cat.")])]])])).

Definition usage_counters : JsVal :=
  JObj [("prompt_tokens", JNum 7); ("completion_tokens", JNum 3);
        ("total_tokens", JNum 10)].

(** The remote endpoint answers according to the requested model. *)
Definition endpoint (model : JsVal) : Z * Result Response :=
  if strict_eq_str model "m-500" then
    (10, Ok (http false 500 "Internal Server Error" "boom" (Ok JNull) []))
  else if strict_eq_str model "m-badjson" then
    (10, Ok (http true 200 "OK" "<html>" (Throw SyntaxError) []))
  else if strict_eq_str model "m-nochoices" then
    (10, Ok (http true 200 "OK" "" (Ok (JObj [("choices", JArr [])])) []))
  else if strict_eq_str model "m-empty" then
    (10, Ok (http true 200 "OK" ""
               (Ok (JObj [("choices", JArr [JObj [("message",
                      JObj [("content", JStr "")])]])])) []))
  else if strict_eq_str model "m-slow" then
    (60000, Ok (http true 200 "OK" "" (answer []) []))
  else if strict_eq_str model "m-noid" then
    (10, Ok (http true 200 "OK" "" (answer []) []))
  else
    (10, Ok (http true 200 "OK" ""
               (answer [("id", JStr "gen-1"); ("usage", usage_counters)])
               [])).

Definition net (r : Request) : Z * Result Response :=
  if String.eqb (method r) "POST" then
    endpoint (match body r with
              | Some b => js_prop b "model"
              | None => JUndefined
              end)
  else if String.eqb (url r) "https://host/x.png" then
    (10, Ok (http true 200 "OK" "" (Throw SyntaxError) (encode Byte.x89 3 2)))
  else if String.eqb (url r) "https://host/data.json" then
    (10, Ok (http true 200 "OK" "{}" (Ok (JObj [("a", JNum 1)]))
               json_bytes))
  else
    (10, Ok (http false 404 "Not Found" "" (Throw SyntaxError) [])).

Fixpoint marks (n : nat) : string :=
  match n with
  | O => ""
  | S k => String "#" (marks k)
  end.

Definition world : World := {|
  URL_protocol := protocol;
  fs_access := fun p =>
    match files p with
    | Some _ => Ok tt
    | None => Throw (ENOENT "access" p)
    end;
  readFileSync := fun p =>
    match files p with
    | Some b => Ok b
    | None => Throw (ENOENT "open" p)
    end;
  path_resolve := fun p => "/work/" ++ p;
  network := net;
  sharp_metadata := metadata;
  sharp_toBuffer := toBuffer;
  randomUUID := fun n => "uuid-" ++ marks n;
  Date_now := 1700000000000
|}.

Definition config : AppConfig := defaultConfig "sk-or-v1-test".

(** An image source that was already loaded. *)
Definition loaded (data : option Buffer) : ImageSource.t :=
  {| ImageSource.type := file; ImageSource.path := Some "/work/img";
     ImageSource.data := data; ImageSource.url := None;
     ImageSource.metadata := None |}.

End Toy.

(** ** Letter case and [typeof] *)

(** [s.toLowerCase()] and [s.toUpperCase()] on the ASCII letters; the
    bytes of every other character are left as they are.  The sources
    only compare the results with the ASCII literals [jpeg], [jpg], [png],
    [webp], [debug], [info], [warn], [error] and their upper-case forms
    [DEBUG], [INFO], [WARN], [ERROR].  The only characters outside ASCII
    whose lower case contains an ASCII character are U+212A (to [k]) and
    U+0130 (to [i] followed by U+0307), which never complete one of the
    lower-case literals; the ones whose upper case contains an ASCII
    character give [I], [S], [SS], [FF], [FI], [FL], [FFI], [FFL], [ST] or
    a letter followed by a combining mark, and the only upper-case literal
    that can be completed is [INFO], the answer the code also gives for a
    string it does not recognise. *)
Definition ascii_toLowerCase (c : ascii) : ascii :=
  let n := N_of_ascii c in
  if ((65 <=? n) && (n <=? 90))%N then ascii_of_N (n + 32) else c.

Definition ascii_toUpperCase (c : ascii) : ascii :=
  let n := N_of_ascii c in
  if ((97 <=? n) && (n <=? 122))%N then ascii_of_N (n - 32) else c.

Fixpoint toLowerCase (s : string) : string :=
  match s with
  | EmptyString => EmptyString
  | String c rest => String (ascii_toLowerCase c) (toLowerCase rest)
  end.

Fixpoint toUpperCase (s : string) : string :=
  match s with
  | EmptyString => EmptyString
  | String c rest => String (ascii_toUpperCase c) (toUpperCase rest)
  end.

(** [typeof v] *)
Definition typeof (v : JsVal) : string :=
  match v with
  | JUndefined => "undefined"
  | JBool _ => "boolean"
  | JNum _ => "number"
  | JStr _ => "string"
  | JNull | JArr _ | JObj _ => "object"
  end.

(** ** ImageProcessor.convertToBase64 *)

Module ImageEncoding.
Section WithWorld.

Variable W : World.
Variable config : AppConfig.

(** [sharp(imageData)]: the constructor may refuse its input before any
    method of the chain is called. *)
Variable sharp_constructor : Buffer -> Result unit.

(** The [switch (format.toLowerCase())] of [convertToBase64]: the encoder
    each case applies before [toBuffer()], with sharp's defaults for the
    options the call leaves out; the default case applies none. *)
Definition target_encoder (format : string) : option Sharp.Encoder :=
  let f := toLowerCase format in
  if String.eqb f "jpeg" || String.eqb f "jpg"
  then Some (Sharp.jpeg (quality (image config)) false)
  else if String.eqb f "png"
  then Some (Sharp.png 6 false)
  else if String.eqb f "webp"
  then Some (Sharp.webp (quality (image config)))
  else None.

Definition convertToBase64 (imageData : Buffer) (format : option string)
  : IO string :=
  try_catch
    (processedBuffer <-
       (if truthy_str format
           && negb (String.eqb (str_or format "") "original")
        then
          (* Convert to specified format *)
          settle (sharp_constructor imageData) ;;;
          match target_encoder (str_or format "") with
          | Some e =>
              settle (sharp_toBuffer W
                        {| Sharp.resize := None; Sharp.encoder := Some e |}
                        imageData)
          | None =>
              (* Keep original format *)
              ret imageData
          end
        else ret imageData) ;;
     ret (toString_base64 processedBuffer))
    (fun error =>
       throw (new_ImageProcessingError "Failed to convert image to base64"
                (as_cause error))).

End WithWorld.
End ImageEncoding.

(** ** Logger (Logger.ts) and Container.mapLogLevel *)

Module Logger.

Inductive LogLevel : Type := DEBUG | INFO | WARN | ERROR.

(** The number of a level: [LogLevel.DEBUG] is 0. *)
Definition value (l : LogLevel) : Z :=
  match l with
  | DEBUG => 0
  | INFO => 1
  | WARN => 2
  | ERROR => 3
  end.

(** [LogLevel[l]]: the name of a level. *)
Definition name (l : LogLevel) : string :=
  match l with
  | DEBUG => "DEBUG"
  | INFO => "INFO"
  | WARN => "WARN"
  | ERROR => "ERROR"
  end.

(** What the field [level] of a logger holds.  The constructor is
    declared to take a [LogLevel]; [fromLevel] takes what it finds in the
    enum object, and the object of a numeric enum also maps each number
    to the name of its level, so the field can hold a name. *)
Inductive Level : Type :=
| Numeric (l : LogLevel)
| Named (l : LogLevel).          (* the string [LogLevel[l]] *)

Record t : Type := {
  level : Level;
  enableConsole : bool;
  context : option string
}.

Record LogEntry : Type := {
  entry_level : LogLevel;
  entry_message : string;
  entry_timestamp : Z;
  entry_context : option string;
  entry_metadata : JsVal
}.

(** A call of [console.debug], [console.info], [console.warn] or
    [console.error], named by its level. *)
Record ConsoleCall : Type := {
  console_method : LogLevel;
  console_line : string
}.

(** [LogLevel[key]]: the enum object has the four names and the four
    numbers as keys. *)
Definition LogLevel_get (key : string) : option Level :=
  if String.eqb key "DEBUG" then Some (Numeric DEBUG)
  else if String.eqb key "INFO" then Some (Numeric INFO)
  else if String.eqb key "WARN" then Some (Numeric WARN)
  else if String.eqb key "ERROR" then Some (Numeric ERROR)
  else if String.eqb key "0" then Some (Named DEBUG)
  else if String.eqb key "1" then Some (Named INFO)
  else if String.eqb key "2" then Some (Named WARN)
  else if String.eqb key "3" then Some (Named ERROR)
  else None.

(** [level < this.level].  A level name converts to no number, and the
    comparison with it is false. *)
Definition less_than (l : LogLevel) (threshold : Level) : bool :=
  match threshold with
  | Numeric t => value l <? value t
  | Named _ => false
  end.

Section WithRuntime.

(** [new Date()], [date.toISOString()] and [JSON.stringify]. *)
Variable now : Z.
Variable toISOString : Z -> string.
Variable JSON_stringify : JsVal -> string.

Definition logToConsole (entry : LogEntry) : list ConsoleCall :=
  let timestamp := toISOString (entry_timestamp entry) in
  let levelName := name (entry_level entry) in
  let contextStr :=
    if truthy_str (entry_context entry)
    then " [" ++ str_or (entry_context entry) "" ++ "]" else "" in
  let metadataStr :=
    if truthy (entry_metadata entry)
    then " " ++ JSON_stringify (entry_metadata entry) else "" in
  let logMessage :=
    timestamp ++ " " ++ levelName ++ contextStr ++ ": "
    ++ entry_message entry ++ metadataStr in
  [{| console_method := entry_level entry; console_line := logMessage |}].

(** The console calls a call of [log] makes. *)
Definition log (logger : t) (l : LogLevel) (message : string)
    (context : option string) (metadata : JsVal) : list ConsoleCall :=
  if less_than l (level logger) then []
  else
    let entry :=
      {| entry_level := l;
         entry_message := message;
         entry_timestamp := now;
         entry_context :=
           if truthy_str context then context else Logger.context logger;
         entry_metadata := metadata |} in
    if enableConsole logger then logToConsole entry else [].

End WithRuntime.

(** Create a child logger with a specific context. *)
Definition child (logger : t) (context : string) : t :=
  {| level := level logger;
     enableConsole := enableConsole logger;
     context := Some context |}.

(** Create logger from string level. *)
Definition fromLevel (levelStr : string) (enableConsole : bool) : t :=
  {| level :=
       match LogLevel_get (toUpperCase levelStr) with
       | Some l => l
       | None => Numeric INFO
       end;
     enableConsole := enableConsole;
     context := None |}.

End Logger.

Module Container.

(** Map string log level to LogLevel enum. *)
Definition mapLogLevel (level : string) : Logger.LogLevel :=
  let l := toLowerCase level in
  if String.eqb l "debug" then Logger.DEBUG
  else if String.eqb l "info" then Logger.INFO
  else if String.eqb l "warn" then Logger.WARN
  else if String.eqb l "error" then Logger.ERROR
  else Logger.INFO.

End Container.

(** ** McpServer.handleAnalyzeImage *)

Module McpServer.

(** The object [handleAnalyzeImage] hands to [JSON.stringify]. *)
Record AnalysisReport : Type := {
  analysis : JsVal;
  model : string;
  timestamp : Z;
  metadata : option ImageMetadata.t;
  source : SourceType * option string;
  usage : JsVal
}.

Record TextContent : Type := {
  type : string;
  text : string
}.

(** The result of a tool call; [isError] is set on failures only. *)
Record CallToolResult : Type := {
  content : list TextContent;
  isError : option bool
}.

(** [args.source] once [typeof] has shown it to be a string. *)
Definition string_value (v : JsVal) : string :=
  match v with
  | JStr s => s
  | _ => ""
  end.

(** [args.model] and [args.prompt] as the request carries them.  The
    request is declared with optional strings, and nothing checks these
    two arguments.  Downstream they are only used as [x || default], so
    every falsy argument acts as an absent one; an argument that is
    truthy and no string is outside of what the request type describes. *)
Definition optional_string (v : JsVal) : option string :=
  match v with
  | JStr s => Some s
  | _ => None
  end.

Definition string_or_falsy (v : JsVal) : bool :=
  match v with
  | JStr _ => true
  | _ => negb (truthy v)
  end.

Section WithController.

Variable imageProcessor : IImageProcessor.
Variable imageAnalysisService : IImageAnalysisService.

(** [JSON.stringify(report, null, 2)] *)
Variable JSON_stringify : AnalysisReport -> string.

Definition handleAnalyzeImage (args : JsVal) : IO CallToolResult :=
  try_catch
    ((* Validate arguments *)
     (if negb (truthy args) || negb (String.eqb (typeof args) "object")
      then throw (new_Error "Invalid arguments provided")
      else ret tt) ;;;
     (if negb (truthy (js_prop args "source"))
         || negb (String.eqb (typeof (js_prop args "source")) "string")
      then throw (new_Error
                    "Source parameter is required and must be a string")
      else ret tt) ;;;
     (* Create request object *)
     let request :=
       {| ImageAnalysisController.source :=
            string_value (js_prop args "source");
          ImageAnalysisController.model :=
            optional_string (js_prop args "model");
          ImageAnalysisController.prompt :=
            optional_string (js_prop args "prompt") |} in
     (* Execute analysis *)
     result <- ImageAnalysisController.analyzeImage imageProcessor
                 imageAnalysisService request ;;
     match result with
     | ImageAnalysisController.Success data =>
         ret {| content :=
                  [{| type := "text";
                      text := JSON_stringify {|
                        analysis := ImageAnalysisController.analysis data;
                        model := ImageAnalysisController.model_used data;
                        timestamp := ImageAnalysisController.timestamp data;
                        metadata := ImageAnalysisController.metadata data;
                        source :=
                          (ImageAnalysisController.source_type data,
                           ImageAnalysisController.source_path data);
                        usage := ImageAnalysisController.usage data |} |}];
                isError := None |}
     | ImageAnalysisController.Failure error =>
         ret {| content :=
                  [{| type := "text";
                      text := "Error: "
                              ++ ImageAnalysisController.message error |}];
                isError := Some true |}
     end)
    (fun error =>
       ret {| content :=
                [{| type := "text";
                    text := "Error: "
                            ++ (if instanceof_Error error
                                then error_message error
                                else "Unknown error occurred") |}];
              isError := Some true |}).

End WithController.
End McpServer.

(** ** Vocabulary of the properties *)

(** The class of the failure of a run, if the run failed with an [Error]. *)
Definition failure_class {A} (r : Result A * State) : option ErrorClass :=
  match fst r with
  | Throw (ErrorObject c _ _ _ _) => Some c
  | _ => None
  end.

(** The message of the failure of a run. *)
Definition failure_message {A} (r : Result A * State) : option string :=
  match fst r with
  | Throw e => Some (error_message e)
  | Ok _ => None
  end.

(** The failure kinds the boundary layer tells apart. *)
Definition recognised (e : Thrown) : bool :=
  instanceof e ImageNotFoundError || instanceof e InvalidImageError
  || instanceof e ImageProcessingError || instanceof e ImageAnalysisError.

Definition thrown_class (e : Thrown) : option ErrorClass :=
  match e with
  | ErrorObject c _ _ _ _ => Some c
  | NonError _ => None
  end.

(** The verdict of [validateImage], which has no effect on the state. *)
Definition passes_validation (W : World) (config : AppConfig)
    (data : Buffer) : bool :=
  match fst (ImageProcessor.validateImage W config data initial_state) with
  | Ok b => b
  | Throw _ => false
  end.

(** * Properties *)

(** ** Basic facts *)

Ltac run_io :=
  unfold bind, try_catch, settle, ret, throw, emit in *; cbn [fst snd] in *.

Lemma array_includes_In (l : list string) (s : string) :
  array_includes l s = true <-> In s l.
Proof.
  unfold array_includes. rewrite existsb_exists. split.
  - intros [x [Hin Heq]]. apply String.eqb_eq in Heq. now subst.
  - intros Hin. exists s. split; [assumption | apply String.eqb_refl].
Qed.

Lemma truthy_num_Some (n : option Z) :
  truthy_num n = true <-> exists k, n = Some k /\ k <> 0.
Proof.
  destruct n as [k|]; cbn.
  - rewrite negb_true_iff, Z.eqb_neq. split.
    + intros H. now exists k.
    + intros [k' [[= <-] H]]. exact H.
  - split; [discriminate | intros [k [[=] _]]].
Qed.

Lemma truthy_str_Some (s : option string) :
  truthy_str s = true <-> exists t, s = Some t /\ t <> "".
Proof.
  destruct s as [t|]; cbn.
  - rewrite negb_true_iff, String.eqb_neq. split.
    + intros H. now exists t.
    + intros [t' [[= <-] H]]. exact H.
  - split; [discriminate | intros [t [[=] _]]].
Qed.

Lemma num_or_nonzero (k d : Z) : k <> 0 -> num_or (Some k) d = k.
Proof. intros H. cbn. apply Z.eqb_neq in H. now rewrite H. Qed.

Lemma str_or_nonempty (t d : string) : t <> "" -> str_or (Some t) d = t.
Proof. intros H. cbn. apply String.eqb_neq in H. now rewrite H. Qed.

(** [validateImage] always resolves, and leaves the state alone. *)
Lemma validateImage_run W config data s :
  ImageProcessor.validateImage W config data s
  = (Ok (passes_validation W config data), s).
Proof.
  unfold passes_validation, ImageProcessor.validateImage. run_io.
  destruct (sharp_metadata W data) as [m|e]; [|reflexivity].
  repeat match goal with
         | |- context [if ?c then _ else _] => destruct c
         end; reflexivity.
Qed.

(** ** Validation (C5) *)

(** C5.  [validate(bytes)] is total and never throws.  It answers [true]
    exactly when the bytes decode, the detected format is a member of the
    configured supported set, the byte size does not exceed the configured
    maximum and width and height are both at least 1; so it answers
    [false] for an unrecognised or unsupported format, an oversized
    buffer, a dimension below 1 and a decode failure, and, sharp refusing
    empty input, for the empty buffer.  By default the maximum is 10 MiB
    and jpeg, png, gif, bmp and webp are supported. *)
Theorem validate_total_and_exact :
  forall (W : World) (config : AppConfig) (data : Buffer) (s : State),
    (exists b : bool,
        ImageProcessor.validateImage W config data s = (Ok b, s) /\
        (b = true <->
         exists m f w h,
           sharp_metadata W data = Ok m /\
           Sharp.format m = Some f /\ f <> "" /\
           In f (supportedFormats (image config)) /\
           buffer_length data <= maxSizeBytes (image config) /\
           Sharp.width m = Some w /\ Sharp.height m = Some h /\
           1 <= w /\ 1 <= h) /\
        (sharp_rejects_empty W -> data = [] -> b = false)) /\
    (forall key,
        maxSizeBytes (image (defaultConfig key)) = 10 * 1024 * 1024 /\
        forall f, In f ["jpeg"; "png"; "gif"; "bmp"; "webp"] ->
                  In f (supportedFormats (image (defaultConfig key)))).
Proof.
  intros W config data s. split.
  2:{ intros key. split; [reflexivity|]. cbn. intuition auto. }
  exists (passes_validation W config data).
  split; [apply validateImage_run|].
  unfold passes_validation, ImageProcessor.validateImage. run_io.
  split.
  - destruct (sharp_metadata W data) as [m|e] eqn:Hm; cbn.
    + destruct (truthy_str (Sharp.format m)) eqn:Hf; cbn.
      * apply truthy_str_Some in Hf. destruct Hf as [f [Hf Hne]].
        rewrite Hf, (str_or_nonempty f "" Hne).
        destruct (array_includes (supportedFormats (image config)) f) eqn:Hin; cbn.
        -- apply array_includes_In in Hin.
           destruct (maxSizeBytes (image config) <? buffer_length data) eqn:Hsz; cbn.
           ++ apply Z.ltb_lt in Hsz. split; [discriminate|].
              intros (m' & f' & w & h & [= <-] & _ & _ & _ & Hle & _). lia.
           ++ apply Z.ltb_ge in Hsz.
              destruct (truthy_num (Sharp.width m)) eqn:Hw; cbn.
              ** apply truthy_num_Some in Hw. destruct Hw as [w [Hw Hw0]].
                 destruct (truthy_num (Sharp.height m)) eqn:Hh; cbn.
                 --- apply truthy_num_Some in Hh. destruct Hh as [h [Hh Hh0]].
                     rewrite Hw, Hh, (num_or_nonzero w 0 Hw0), (num_or_nonzero h 0 Hh0).
                     destruct (w <? 1) eqn:Hw1; cbn.
                     +++ apply Z.ltb_lt in Hw1. split; [discriminate|].
                         intros (m' & f' & w' & h' & [= <-] & _ & _ & _ & _ & Hw' & _ & Hge & _).
                         rewrite Hw in Hw'. injection Hw' as <-. lia.
                     +++ apply Z.ltb_ge in Hw1.
                         destruct (h <? 1) eqn:Hh1; cbn.
                         *** apply Z.ltb_lt in Hh1. split; [discriminate|].
                             intros (m' & f' & w' & h' & [= <-] & _ & _ & _ & _ & _ & Hh' & _ & Hge).
                             rewrite Hh in Hh'. injection Hh' as <-. lia.
                         *** apply Z.ltb_ge in Hh1. split; [|reflexivity].
                             intros _. exists m, f, w, h. repeat split; assumption.
                 --- split; [discriminate|].
                     intros (m' & f' & w' & h' & [= <-] & _ & _ & _ & _ & _ & Hh' & _ & Hge).
                     assert (Ht : truthy_num (Sharp.height m) = true)
                       by (apply truthy_num_Some; exists h'; split; [assumption | lia]).
                     congruence.
              ** split; [discriminate|].
                 intros (m' & f' & w' & h' & [= <-] & _ & _ & _ & _ & Hw' & _ & Hge & _).
                 assert (Ht : truthy_num (Sharp.width m) = true)
                   by (apply truthy_num_Some; exists w'; split; [assumption | lia]).
                 congruence.
        -- split; [discriminate|].
           intros (m' & f' & w & h & [= <-] & Hf' & _ & Hin' & _).
           rewrite Hf in Hf'. injection Hf' as <-.
           apply array_includes_In in Hin'. congruence.
      * split; [discriminate|].
        intros (m' & f' & w & h & [= <-] & Hf' & Hne & _).
        assert (Ht : truthy_str (Sharp.format m) = true)
          by (apply truthy_str_Some; now exists f').
        congruence.
    + split; [discriminate|].
      intros (m' & _ & _ & _ & [=] & _).
  - intros [e He] ->. now rewrite He.
Qed.

(** The empty buffer is refused and a 3 by 2 PNG is accepted. *)
Lemma validate_total_and_exact_witness :
  ImageProcessor.validateImage Toy.world Toy.config [] initial_state
  = (Ok false, initial_state) /\
  ImageProcessor.validateImage Toy.world Toy.config (Toy.encode Byte.x89 3 2)
    initial_state = (Ok true, initial_state).
Proof.
  split.
  - destruct (proj1 (validate_total_and_exact Toy.world Toy.config []
                       initial_state)) as (b & Hrun & _ & Hempty).
    rewrite Hrun. now rewrite (Hempty (ex_intro _ _ eq_refl) eq_refl).
  - destruct (proj1 (validate_total_and_exact Toy.world Toy.config
                       (Toy.encode Byte.x89 3 2) initial_state))
      as (b & Hrun & Hexact & _).
    rewrite Hrun.
    assert (Hb : b = true).
    { apply Hexact.
      exists {| Sharp.format := Some "png"; Sharp.width := Some 3;
                Sharp.height := Some 2; Sharp.hasAlpha := Some false;
                Sharp.space := Some "srgb"; Sharp.density := Some 72 |},
             "png", 3, 2.
      repeat split; try reflexivity; try discriminate; try lia.
      cbn. auto. }
    now rewrite Hb.
Defined.

(** ** Resize geometry *)

Lemma scaled_by_one (x : Z) : Sharp.scaled x (1, 1) = x.
Proof.
  unfold Sharp.scaled; cbn [fst snd].
  symmetry. apply Z.div_unique with (r := 1); lia.
Qed.






Lemma shrink_clamped (x : Z) (s : Sharp.Shrink) :
  1 <= x -> fst s <= snd s ->
  Sharp.scaled x (Sharp.shrink_min (Sharp.shrink_max (1, 1) s) (x, 1)) = x.
Proof.
  intros Hx Hs.
  unfold Sharp.shrink_max, Sharp.shrink_min, Sharp.shrink_ltb; cbn [fst snd].
  replace (1 * snd s <? fst s * 1) with false
    by (symmetry; apply Z.ltb_ge; lia).
  cbn [fst snd].
  destruct (1 * 1 <? x * 1) eqn:Hc.
  - apply scaled_by_one.
  - apply Z.ltb_ge in Hc. assert (x = 1) by lia. subst x. reflexivity.
Qed.

(** Fit inside without enlargement leaves an image within the bounds as
    it is. *)
Lemma resized_inside_small (w h : Z) (maxWidth maxHeight : option Z) :
  1 <= w -> 1 <= h ->
  (forall x, maxWidth = Some x -> w <= x) ->
  (forall y, maxHeight = Some y -> h <= y) ->
  Sharp.resized (Sharp.ResizeInside maxWidth maxHeight) w h = (w, h).
Proof.
  intros Hw Hh Hx Hy. unfold Sharp.resized, Sharp.resolveShrink.
  destruct maxWidth as [x|], maxHeight as [y|]; cbn [fst snd].
  - specialize (Hx x eq_refl). specialize (Hy y eq_refl).
    assert (Hs : fst (Sharp.shrink_max (w, x) (h, y))
                 <= snd (Sharp.shrink_max (w, x) (h, y)))
      by (unfold Sharp.shrink_max; destruct (Sharp.shrink_ltb _ _); cbn; lia).
    now rewrite !shrink_clamped.
  - specialize (Hx x eq_refl). now rewrite !shrink_clamped by (cbn; lia).
  - specialize (Hy y eq_refl). now rewrite !shrink_clamped by (cbn; lia).
  - unfold Sharp.shrink_min, Sharp.shrink_ltb; cbn [fst snd].
    f_equal.
    + destruct (1 * 1 <? w * 1) eqn:Hc; [apply scaled_by_one|].
      apply Z.ltb_ge in Hc. assert (w = 1) by lia. subst w. reflexivity.
    + destruct (1 * 1 <? h * 1) eqn:Hc; [apply scaled_by_one|].
      apply Z.ltb_ge in Hc. assert (h = 1) by lia. subst h. reflexivity.
Qed.

(** ** The toy world obeys the assumptions on sharp and on UUIDs *)

Lemma toy_count_repeat (a b : Byte.byte) (n m : nat) :
  Byte.eqb a b = false ->
  Toy.count_byte a (repeat a n ++ repeat b m)%list = Z.of_nat n /\
  Toy.count_byte b (repeat a n ++ repeat b m)%list = Z.of_nat m.
Proof.
  intros Hab. unfold Toy.count_byte.
  assert (Hba : Byte.eqb b a = false).
  { destruct (Byte.eqb b a) eqn:E; [|reflexivity].
    apply Byte.byte_dec_bl in E. subst. now rewrite Byte.byte_dec_lb in Hab. }
  assert (Haa : forall c, Byte.eqb c c = true)
    by (intros c; now apply Byte.byte_dec_lb).
  rewrite !filter_app, !length_app.
  assert (Hsame : forall c k, filter (Byte.eqb c) (repeat c k) = repeat c k).
  { intros c k. induction k; cbn; [reflexivity|]. now rewrite Haa, IHk. }
  assert (Hnone : forall c d k, Byte.eqb c d = false ->
                                filter (Byte.eqb c) (repeat d k) = []).
  { intros c d k H. induction k; cbn; [reflexivity|]. now rewrite H, IHk. }
  rewrite !Hsame, (Hnone a b m Hab), (Hnone b a n Hba), !repeat_length.
  cbn. split; lia.
Qed.

Lemma toy_metadata_encode (c : Byte.byte) (f : string) (w h : Z) :
  Toy.format_of_code c = Some f -> 0 <= w -> 0 <= h ->
  exists m, Toy.metadata (Toy.encode c w h) = Ok m /\
            Sharp.format m = Some f /\
            Sharp.width m = Some w /\ Sharp.height m = Some h.
Proof.
  intros Hc Hw Hh. unfold Toy.metadata, Toy.encode. rewrite Hc.
  eexists. split; [reflexivity|]. cbn [Sharp.format Sharp.width Sharp.height].
  destruct (toy_count_repeat Byte.x01 Byte.x02 (Z.to_nat w) (Z.to_nat h) eq_refl)
    as [-> ->].
  rewrite !Z2Nat.id by assumption. auto.
Qed.

Lemma toy_rejects_empty : sharp_rejects_empty Toy.world.
Proof. eexists. reflexivity. Qed.

Lemma toy_output_faithful : sharp_output_faithful Toy.world.
Proof.
  intros p data out m w h Hm Hw Hh Hout. cbn in Hm, Hout |- *.
  destruct data as [|c rest]; [discriminate|].
  unfold Toy.metadata in Hm. unfold Toy.toBuffer in Hout.
  destruct (Toy.format_of_code c) as [f|] eqn:Hc.
  - injection Hm as <-. cbn in Hw, Hh. injection Hw as <-. injection Hh as <-.
    set (d := Sharp.output_dims p _ _) in *.
    destruct ((fst d <? 1) || (snd d <? 1)) eqn:Hd; [discriminate|].
    apply orb_false_iff in Hd. destruct Hd as [Hd1 Hd2].
    apply Z.ltb_ge in Hd1, Hd2. injection Hout as <-.
    cbn [Sharp.format]. unfold Sharp.output_format.
    destruct (Sharp.encoder p) as [e|].
    + destruct (toy_metadata_encode (Toy.code_of_encoder e)
                  (Sharp.encoder_format e) (fst d) (snd d))
        as (m' & Hm' & Hf' & Hw' & Hh'); try lia.
      { now destruct e. }
      exists m'. auto.
    + destruct (toy_metadata_encode c f (fst d) (snd d))
        as (m' & Hm' & Hf' & Hw' & Hh'); try lia; [assumption|].
      exists m'. auto.
  - destruct (Byte.eqb c Byte.x00); [|discriminate].
    injection Hm as <-. discriminate.
Qed.

Lemma toy_marks_length (n : nat) : String.length (Toy.marks n) = n.
Proof. induction n; cbn; congruence. Qed.

Lemma toy_uuids_distinct : uuids_distinct Toy.world.
Proof.
  intros i j H. cbn in H.
  assert (Hm : Toy.marks i = Toy.marks j) by (now injection H).
  rewrite <- (toy_marks_length i), <- (toy_marks_length j). now rewrite Hm.
Qed.

(** ** Transcoding for submission (C4) *)




(** ** General-purpose optimisation (C10) *)

Lemma format_encoder_keeps_format config (p : Sharp.Pipeline) (f : option string) :
  Sharp.encoder p = ImageProcessor.format_encoder config f ->
  Sharp.output_format p f = f.
Proof.
  intros Hp. unfold Sharp.output_format. rewrite Hp.
  unfold ImageProcessor.format_encoder.
  destruct f as [f|]; [|reflexivity].
  destruct (String.eqb f "jpeg") eqn:Hj.
  { apply String.eqb_eq in Hj. now subst. }
  destruct (String.eqb f "png") eqn:Hp'.
  { apply String.eqb_eq in Hp'. now subst. }
  destruct (String.eqb f "webp") eqn:Hw; [|reflexivity].
  apply String.eqb_eq in Hw. now subst.
Qed.

(** C10.  When [optimizeImage] succeeds on a [w] by [h] image with
    [w <= maxWidth] and [h <= maxHeight] (for each bound that is given),
    its output decodes with the same width, height and format: the image
    is not enlarged.  The bytes are the output of a pipeline whose only
    encoding step is the one of the detected format (progressive JPEG at
    the configured quality, PNG at compression level 9, WebP at the
    configured quality, none otherwise), and without bounds the pipeline
    has no resize step. *)
Theorem optimize_never_enlarges :
  forall (W : World) (config : AppConfig) (data : Buffer)
         (maxWidth maxHeight : option Z) (s s' : State) (out : Buffer)
         (m : Sharp.Metadata) (w h : Z),
    sharp_output_faithful W ->
    sharp_metadata W data = Ok m ->
    Sharp.width m = Some w -> Sharp.height m = Some h ->
    1 <= w -> 1 <= h ->
    (forall x, maxWidth = Some x -> w <= x) ->
    (forall y, maxHeight = Some y -> h <= y) ->
    ImageProcessor.optimizeImage W config data maxWidth maxHeight s
    = (Ok out, s') ->
    exists resize encoder m',
      sharp_toBuffer W
        {| Sharp.resize := resize; Sharp.encoder := encoder |} data = Ok out /\
      (maxWidth = None -> maxHeight = None -> resize = None) /\
      (Sharp.format m = Some "jpeg" ->
       encoder = Some (Sharp.jpeg (quality (image config)) true)) /\
      (Sharp.format m = Some "png" -> encoder = Some (Sharp.png 9 true)) /\
      (Sharp.format m = Some "webp" ->
       encoder = Some (Sharp.webp (quality (image config)))) /\
      sharp_metadata W out = Ok m' /\
      Sharp.width m' = Some w /\ Sharp.height m' = Some h /\
      Sharp.format m' = Sharp.format m.
Proof.
  intros W config data maxWidth maxHeight s s' out m w h
         Hlaw Hm Hw Hh Hw1 Hh1 Hx Hy Hrun.
  unfold ImageProcessor.optimizeImage in Hrun. run_io.
  assert (Hvx : Sharp.valid_dimension maxWidth = true).
  { destruct maxWidth as [x|]; [|reflexivity]. cbn.
    apply Z.ltb_lt. specialize (Hx x eq_refl). lia. }
  assert (Hvy : Sharp.valid_dimension maxHeight = true).
  { destruct maxHeight as [y|]; [|reflexivity]. cbn.
    apply Z.ltb_lt. specialize (Hy y eq_refl). lia. }
  set (resize := if truthy_num maxWidth || truthy_num maxHeight
                 then Some (Sharp.ResizeInside maxWidth maxHeight)
                 else None).
  set (p := {| Sharp.resize := resize;
               Sharp.encoder :=
                 ImageProcessor.format_encoder config (Sharp.format m) |}).
  assert (Hout : sharp_toBuffer W p data = Ok out).
  { subst p resize. unfold ImageProcessor.sharp_resize in Hrun.
    rewrite Hvx, Hvy in Hrun. cbn [negb] in Hrun. run_io.
    destruct (truthy_num maxWidth || truthy_num maxHeight);
      rewrite Hm in Hrun;
      destruct (sharp_toBuffer W _ data) as [o|]; try discriminate;
      now injection Hrun as <- _. }
  destruct (Hlaw _ _ _ _ _ _ Hm Hw Hh Hout) as (m' & Hm' & Hw' & Hh' & Hf').
  assert (Hdims : Sharp.output_dims p w h = (w, h)).
  { unfold Sharp.output_dims. subst p resize. cbn [Sharp.resize].
    destruct (truthy_num maxWidth || truthy_num maxHeight); [|reflexivity].
    now apply resized_inside_small. }
  rewrite Hdims in Hw', Hh'. cbn [fst snd] in Hw', Hh'.
  rewrite (format_encoder_keeps_format config p) in Hf' by reflexivity.
  exists resize, (ImageProcessor.format_encoder config (Sharp.format m)), m'.
  repeat split; try assumption.
  - intros -> ->. reflexivity.
  - intros ->. reflexivity.
  - intros ->. reflexivity.
  - intros ->. reflexivity.
Qed.

(** A 3 by 2 PNG optimised within 100 by 100 stays 3 by 2. *)
Lemma optimize_never_enlarges_witness :
  let picture := Toy.encode Byte.x89 3 2 in
  exists resize encoder m',
    sharp_toBuffer Toy.world
      {| Sharp.resize := resize; Sharp.encoder := encoder |} picture
    = Ok picture /\
    (Some 100 = None -> Some 100 = None -> resize = None) /\
    (Some "png" = Some "jpeg" ->
     encoder = Some (Sharp.jpeg (quality (image Toy.config)) true)) /\
    (Some "png" = Some "png" -> encoder = Some (Sharp.png 9 true)) /\
    (Some "png" = Some "webp" ->
     encoder = Some (Sharp.webp (quality (image Toy.config)))) /\
    sharp_metadata Toy.world picture = Ok m' /\
    Sharp.width m' = Some 3 /\ Sharp.height m' = Some 2 /\
    Sharp.format m' = Some "png".
Proof.
  intros picture.
  refine (optimize_never_enlarges Toy.world Toy.config picture
            (Some 100) (Some 100) initial_state initial_state picture
            {| Sharp.format := Some "png"; Sharp.width := Some 3;
               Sharp.height := Some 2; Sharp.hasAlpha := Some false;
               Sharp.space := Some "srgb"; Sharp.density := Some 72 |}
            3 2 toy_output_faithful _ _ _ _ _ _ _ _).
  - reflexivity.
  - reflexivity.
  - reflexivity.
  - lia.
  - lia.
  - intros x [= <-]. lia.
  - intros y [= <-]. lia.
  - vm_compute. reflexivity.
Defined.

(** ** Inspection (C9) *)




(** ** Failures of [try]/[catch] blocks *)

(** A block whose handler only throws errors with property [P] only fails
    with such errors. *)
Lemma try_catch_throws {A} (body : IO A) (handler : Thrown -> IO A)
    (P : Thrown -> Prop) :
  (forall e0 s0 e s', handler e0 s0 = (Throw e, s') -> P e) ->
  forall s e s', try_catch body handler s = (Throw e, s') -> P e.
Proof.
  intros Hh s e s'. unfold try_catch.
  destruct (body s) as [[a|e0] s0]; [discriminate|]. apply Hh.
Qed.

(** A block whose body fails behaves as its handler. *)
Lemma try_catch_failed {A} (body : IO A) (handler : Thrown -> IO A) s e s' :
  body s = (Throw e, s') -> try_catch body handler s = handler e s'.
Proof. intros H. unfold try_catch. now rewrite H. Qed.

Lemma instanceof_class (e : Thrown) (c : ErrorClass) :
  instanceof e c = true <-> thrown_class e = Some c.
Proof.
  destruct e as [c' n m st ca|v]; cbn; [|split; discriminate].
  split.
  - destruct c', c; cbn; intros H; try discriminate; reflexivity.
  - intros [= ->]. now destruct c.
Qed.


(** ** The orchestrator (C1) *)

(** Whatever the collaborators do, [execute] fails only with an
    [ImageProcessingError] or an [ImageAnalysisError]. *)
Lemma execute_failure_closed
    (imageProcessor : IImageProcessor)
    (imageAnalysisService : IImageAnalysisService)
    (source : string) (model prompt : option string) (s s' : State)
    (e : Thrown) :
  AnalyzeImageUseCase.execute imageProcessor imageAnalysisService
    source model prompt s = (Throw e, s') ->
  instanceof e ImageProcessingError = true \/
  instanceof e ImageAnalysisError = true.
Proof.
  unfold AnalyzeImageUseCase.execute.
  refine (try_catch_throws _ _
            (fun e => instanceof e ImageProcessingError = true \/
                      instanceof e ImageAnalysisError = true) _ s e s').
  intros e0 s0 e1 s1.
  destruct (instanceof e0 ImageProcessingError) eqn:Hp; cbn [orb].
  - intros [= <- _]. now left.
  - destruct (instanceof e0 ImageAnalysisError) eqn:Ha.
    + intros [= <- _]. now right.
    + intros [= <- _]. now right.
Qed.

(** A failure of the loader that is neither an [ImageProcessingError] nor
    an [ImageAnalysisError] leaves [execute] wrapped in an
    [ImageAnalysisError]. *)
Lemma execute_wraps_other_failures
    (imageProcessor : IImageProcessor)
    (imageAnalysisService : IImageAnalysisService)
    (source : string) (model prompt : option string) (s s' : State)
    (e : Thrown) :
  loadImage imageProcessor source s = (Throw e, s') ->
  instanceof e ImageProcessingError = false ->
  instanceof e ImageAnalysisError = false ->
  AnalyzeImageUseCase.execute imageProcessor imageAnalysisService
    source model prompt s
  = (Throw (new_ImageAnalysisError "Unexpected error during vision analysis"
              (as_cause e)), s').
Proof.
  intros Hload Hp Ha. unfold AnalyzeImageUseCase.execute.
  erewrite try_catch_failed.
  - now rewrite Hp, Ha.
  - unfold bind. now rewrite Hload.
Qed.

(** C1, the code at a locator of a file that does not exist and at one of
    a file that is no image: the loader fails with [ImageNotFoundError],
    respectively [InvalidImageError], and [execute] does not let that
    failure through unchanged but fails with an [ImageAnalysisError]
    that carries it as cause. *)
Theorem execute_wraps_not_found_and_invalid :
  let imageProcessor := the_ImageProcessor Toy.world Toy.config in
  let service := the_OpenRouterService Toy.world Toy.config in
  loadImage imageProcessor "missing.png" initial_state
  = (Throw (new_ImageNotFoundError "File not found: missing.png"),
     initial_state) /\
  AnalyzeImageUseCase.execute imageProcessor service "missing.png" None None
    initial_state
  = (Throw (new_ImageAnalysisError "Unexpected error during vision analysis"
              (Some (new_ImageNotFoundError "File not found: missing.png"))),
     initial_state) /\
  loadImage imageProcessor "notes.json" initial_state
  = (Throw (new_InvalidImageError "Invalid image file: notes.json"),
     initial_state) /\
  AnalyzeImageUseCase.execute imageProcessor service "notes.json" None None
    initial_state
  = (Throw (new_ImageAnalysisError "Unexpected error during vision analysis"
              (Some (new_InvalidImageError "Invalid image file: notes.json"))),
     initial_state).
Proof. vm_compute. repeat split. Qed.

(** ** The loader (C2) *)

Lemma includes_ENOENT_in_invalid_file (filePath : string) :
  includes "ENOENT"
    (error_message (new_InvalidImageError ("Invalid image file: " ++ filePath)))
  = includes "ENOENT" filePath.
Proof. reflexivity. Qed.

Lemma ENOENT_message_includes (syscall path : string) :
  includes "ENOENT" (error_message (ENOENT syscall path)) = true.
Proof. reflexivity. Qed.

(** C2, as the code has it.  [loadImage] fails
    - with [ImageNotFoundError] when the locator is a local path and the
      file does not exist;
    - with [ImageProcessingError] when the locator is an http(s) URL and
      the fetch answers with a non-success status;
    - with [InvalidImageError] when the bytes fetched from a URL, or read
      from a file whose path does not contain the text ENOENT, do not
      pass validation;
    - with [ImageProcessingError] for any other failure of the file
      access, the file read, the fetch or the reading of its body, as
      long as the failure's message does not contain the text ENOENT. *)
Theorem load_failure_kinds :
  forall (W : World) (config : AppConfig) (source : string) (s : State),
    let run := ImageProcessor.loadImage W config source s in
    let fetched := snd (network W (ImageProcessor.get_request source)) in
    (ImageProcessor.isUrl W source = false ->
     fs_access W source = Throw (ENOENT "access" source) ->
     failure_class run = Some ImageNotFoundError) /\
    (ImageProcessor.isUrl W source = true ->
     forall response,
       fetched = Ok response -> ok response = false ->
       failure_class run = Some ImageProcessingError) /\
    (ImageProcessor.isUrl W source = true ->
     forall response data,
       fetched = Ok response -> ok response = true ->
       arrayBuffer response = Ok data ->
       passes_validation W config data = false ->
       failure_class run = Some InvalidImageError) /\
    (ImageProcessor.isUrl W source = false ->
     includes "ENOENT" source = false ->
     forall data,
       fs_access W source = Ok tt -> readFileSync W source = Ok data ->
       passes_validation W config data = false ->
       failure_class run = Some InvalidImageError) /\
    (ImageProcessor.isUrl W source = false ->
     forall e,
       fs_access W source = Throw e \/
       (fs_access W source = Ok tt /\ readFileSync W source = Throw e) ->
       instanceof e InvalidImageError = false ->
       instanceof_Error e && includes "ENOENT" (error_message e) = false ->
       failure_class run = Some ImageProcessingError) /\
    (ImageProcessor.isUrl W source = true ->
     forall e,
       fetched = Throw e \/
       (exists response, fetched = Ok response /\ ok response = true /\
                         arrayBuffer response = Throw e) ->
       instanceof e InvalidImageError = false ->
       failure_class run = Some ImageProcessingError).
Proof.
  intros W config source s run fetched. subst run fetched.
  unfold ImageProcessor.loadImage.
  repeat split.
  - intros Hfile Hacc. rewrite Hfile.
    unfold ImageProcessor.loadFromFile. run_io. now rewrite Hacc.
  - intros Hurl response Hfetch Hok. rewrite Hurl.
    unfold ImageProcessor.loadFromUrl. run_io. now rewrite Hfetch, Hok.
  - intros Hurl response data Hfetch Hok Hbuf Hval. rewrite Hurl.
    unfold ImageProcessor.loadFromUrl. run_io.
    rewrite Hfetch, Hok, Hbuf. cbn [negb].
    now rewrite validateImage_run, Hval.
  - intros Hfile Hpath data Hacc Hread Hval. rewrite Hfile.
    unfold ImageProcessor.loadFromFile. run_io.
    rewrite Hacc, Hread, validateImage_run, Hval. cbn [negb].
    rewrite includes_ENOENT_in_invalid_file, Hpath. reflexivity.
  - intros Hfile e Hfail Hinv Hmsg. rewrite Hfile.
    unfold ImageProcessor.loadFromFile. run_io.
    destruct Hfail as [Hacc | [Hacc Hread]].
    + rewrite Hacc. cbv beta iota. now rewrite Hmsg, Hinv.
    + rewrite Hacc, Hread. cbv beta iota. now rewrite Hmsg, Hinv.
  - intros Hurl e Hfail Hinv. rewrite Hurl.
    unfold ImageProcessor.loadFromUrl. run_io.
    destruct Hfail as [Hfetch | (response & Hfetch & Hok & Hbuf)].
    + rewrite Hfetch. cbv beta iota. now rewrite Hinv.
    + rewrite Hfetch, Hok, Hbuf. cbn [negb]. cbv beta iota. now rewrite Hinv.
Qed.

(** Each kind of loader failure on an explicit locator. *)
Lemma load_failure_kinds_witness :
  let load source :=
    failure_class
      (ImageProcessor.loadImage Toy.world Toy.config source initial_state) in
  load "missing.png" = Some ImageNotFoundError /\
  load "https://host/missing.png" = Some ImageProcessingError /\
  load "https://host/data.json" = Some InvalidImageError /\
  load "notes.json" = Some InvalidImageError.
Proof.
  intros load. subst load. cbv beta.
  refine (conj _ (conj _ (conj _ _))).
  - exact (proj1 (load_failure_kinds Toy.world Toy.config "missing.png"
                    initial_state) eq_refl eq_refl).
  - exact (proj1 (proj2 (load_failure_kinds Toy.world Toy.config
                           "https://host/missing.png" initial_state))
             eq_refl _ eq_refl eq_refl).
  - exact (proj1 (proj2 (proj2 (load_failure_kinds Toy.world Toy.config
                                  "https://host/data.json" initial_state)))
             eq_refl _ _ eq_refl eq_refl eq_refl eq_refl).
  - exact (proj1 (proj2 (proj2 (proj2 (load_failure_kinds Toy.world Toy.config
                                         "notes.json" initial_state))))
             eq_refl eq_refl _ eq_refl eq_refl eq_refl).
Defined.

(** C2, as stated, fails: a URL whose fetch answers 404 Not Found makes
    [loadImage] fail with an [ImageProcessingError], not with an
    [ImageNotFoundError]. *)
Lemma load_url_404_is_processing_failure :
  let source := "https://host/missing.png" in
  ImageProcessor.isUrl Toy.world source = true /\
  (exists response,
      snd (network Toy.world (ImageProcessor.get_request source)) = Ok response /\
      ok response = false /\ status response = 404) /\
  ImageProcessor.loadImage Toy.world Toy.config source initial_state
  = (Throw
       (new_ImageProcessingError
          ("Failed to load image from source: " ++ source)
          (Some (new_ImageProcessingError
                   ("Failed to load image from URL: " ++ source)
                   (Some (new_Error "HTTP 404: Not Found"))))),
     {| trace := [EvFetch (ImageProcessor.get_request source)]; uuids := 0 |}) /\
  failure_class
    (ImageProcessor.loadImage Toy.world Toy.config source initial_state)
  <> Some ImageNotFoundError.
Proof.
  cbv zeta. split; [reflexivity|]. split.
  - eexists. repeat split.
  - split; [vm_compute; reflexivity|]. vm_compute. discriminate.
Qed.

(** ** The boundary layer (C8) *)

Import ImageAnalysisController.

(** The response to a domain failure, by class. *)
Lemma handleError_by_class (e : Thrown) :
  handleError e =
  match thrown_class e with
  | Some ImageNotFoundError =>
      createErrorResponse "IMAGE_NOT_FOUND" (error_message e) None
  | Some InvalidImageError =>
      createErrorResponse "INVALID_IMAGE" (error_message e) None
  | Some ImageProcessingError =>
      createErrorResponse "IMAGE_PROCESSING_ERROR" (error_message e)
        (Some (DetailsCause (cause_message e)))
  | Some ImageAnalysisError =>
      createErrorResponse "ANALYSIS_ERROR" (error_message e)
        (Some (DetailsCause (cause_message e)))
  | _ =>
      createErrorResponse "INTERNAL_ERROR"
        "An unexpected error occurred during vision analysis"
        (Some (DetailsOriginalError (message_or_unknown e)))
  end.
Proof. destruct e as [c n m st ca|v]; [destruct c|]; reflexivity. Qed.




(** What crosses from the orchestrator into the boundary layer is always
    of a recognised kind. *)
Lemma execute_failure_recognised
    (imageProcessor : IImageProcessor)
    (imageAnalysisService : IImageAnalysisService)
    (source : string) (model prompt : option string) (s s' : State)
    (e : Thrown) :
  AnalyzeImageUseCase.execute imageProcessor imageAnalysisService
    source model prompt s = (Throw e, s') ->
  recognised e = true.
Proof.
  intros H. apply execute_failure_closed in H. unfold recognised.
  destruct H as [-> | ->]; now rewrite !orb_true_r.
Qed.

(** The controller never throws, and an error response it gives for a
    request with a source comes from a failure of a recognised kind. *)
Lemma controller_failure_responses
    (imageProcessor : IImageProcessor)
    (imageAnalysisService : IImageAnalysisService)
    (request : AnalyzeImageRequest) (s : State) :
  exists response s',
    ImageAnalysisController.analyzeImage imageProcessor imageAnalysisService
      request s = (Ok response, s') /\
    forall failure,
      response = Failure failure ->
      source request <> "" ->
      exists e,
        fst (AnalyzeImageUseCase.execute imageProcessor imageAnalysisService
               (source request) (model request) (prompt request) s)
        = Throw e /\
        recognised e = true /\
        handleError e = Failure failure.
Proof.
  unfold ImageAnalysisController.analyzeImage, try_catch.
  destruct (String.eqb_spec (source request) "") as [Hempty|Hsource].
  - do 2 eexists. split; [reflexivity|]. intros failure _ Hne. contradiction.
  - unfold bind.
    destruct (AnalyzeImageUseCase.execute imageProcessor imageAnalysisService
                (source request) (model request) (prompt request) s)
      as [[result|e] s0] eqn:Hrun.
    + do 2 eexists. split; [reflexivity|]. discriminate.
    + do 2 eexists. split; [reflexivity|]. intros failure Hresp _.
      exists e. split; [reflexivity|].
      split; [exact (execute_failure_recognised _ _ _ _ _ _ _ _ Hrun)|].
      exact Hresp.
Qed.

(** ** The remote vision client *)

Section RemoteClient.

Variable W : World.
Variable config : AppConfig.

Let t : Z := timeout (openRouter config).

(* Case analysis on an innermost scrutinee. *)
Ltac break_match :=
  match goal with
  | |- context [match ?x with _ => _ end] =>
      lazymatch x with
      | context [match _ with _ => _ end] => fail
      | _ => destruct x eqn:?
      end
  end.

Lemma requests_app (l l' : list Event) :
  requests (l ++ l') = (requests l ++ requests l')%list.
Proof.
  induction l as [|ev l IH]; [reflexivity|].
  destruct ev; cbn; now rewrite IH.
Qed.

(** Preparing the image touches neither the network nor the state. *)
Lemma prepare_keeps_state (imageSource : ImageSource.t) (s s' : State)
    (r : Result string) :
  OpenRouterService.prepareImageForAPI W imageSource s = (r, s') -> s' = s.
Proof.
  unfold OpenRouterService.prepareImageForAPI.
  destruct (ImageSource.data imageSource) as [data|];
    [|now intros [= _ <-]].
  run_io.
  destruct (sharp_metadata W data) as [m|]; [|now intros [= _ <-]].
  destruct (truthy_num (Sharp.width m) && truthy_num (Sharp.height m));
    [destruct (OpenRouterService.MAX_DIMENSION <? _)|];
    try destruct (sharp_toBuffer W _ data); now intros [= _ <-].
Qed.

(** The call makes exactly one request, the one of [apiRequest]. *)
Lemma call_requests (img prompt model : string) (s s' : State)
    (r : Result JsVal) :
  OpenRouterService.callOpenRouterAPI W config img prompt model s = (r, s') ->
  requests (trace s')
  = (requests (trace s)
       ++ [OpenRouterService.apiRequest config img prompt model])%list /\
  uuids s' = uuids s.
Proof.
  unfold OpenRouterService.callOpenRouterAPI,
    OpenRouterService.fetch_with_signal, OpenRouterService.thrown_name,
    OpenRouterService.get_choices.
  run_io.
  repeat break_match;
    repeat match goal with
           | H : (_, _) = (_, _) |- _ => injection H as <- <-
           end;
    intros [= _ <-]; cbn [trace uuids];
    rewrite ?requests_app; cbn [requests];
    rewrite ?app_nil_r; auto.
Qed.

(** When the network has not settled within the timeout, the timer
    fires, the request is aborted and the call reports a timeout. *)
Lemma call_timed_out (img prompt model : string) (s : State)
    (latency : Z) (outcome : Result Response) :
  network W (OpenRouterService.apiRequest config img prompt model)
  = (latency, outcome) ->
  t < latency ->
  OpenRouterService.callOpenRouterAPI W config img prompt model s
  = (Throw (new_Error ("Request timeout after " ++ string_of_Z t ++ "ms")),
     {| trace := trace s
                 ++ [EvSetTimeout t;
                     EvFetch (OpenRouterService.apiRequest config img
                                prompt model);
                     EvAbort; EvClearTimeout];
        uuids := uuids s |}).
Proof.
  intros Hnet Hlate. apply Z.ltb_lt in Hlate. subst t.
  unfold OpenRouterService.callOpenRouterAPI,
    OpenRouterService.fetch_with_signal.
  run_io. rewrite Hnet, Hlate. cbn. now rewrite <- !app_assoc.
Qed.




Variable imageSource : ImageSource.t.
Variables model prompt : option string.

Let selectedModel : string := str_or model (defaultModel (openRouter config)).
Let analysisPrompt : string :=
  str_or prompt OpenRouterService.default_prompt.

(** Every failure of [analyzeImage] is an [ImageAnalysisError]. *)
Lemma analyze_failure_closed (s s' : State) (e : Thrown) :
  OpenRouterService.analyzeImage W config imageSource model prompt s
  = (Throw e, s') ->
  instanceof e ImageAnalysisError = true.
Proof.
  unfold OpenRouterService.analyzeImage.
  refine (try_catch_throws _ _
            (fun e => instanceof e ImageAnalysisError = true) _ s e s').
  intros e0 s0 e1 s1.
  destruct (instanceof e0 ImageAnalysisError) eqn:Ha; now intros [= <- _].
Qed.

(** A failure of the call becomes a failure of [analyzeImage]. *)
Lemma analyze_call_failed (img : string) (s s1 s2 : State) (e0 : Thrown) :
  OpenRouterService.prepareImageForAPI W imageSource s = (Ok img, s1) ->
  OpenRouterService.callOpenRouterAPI W config img analysisPrompt
    selectedModel s1 = (Throw e0, s2) ->
  OpenRouterService.analyzeImage W config imageSource model prompt s
  = (Throw (if instanceof e0 ImageAnalysisError then e0
            else new_ImageAnalysisError
                   ("OpenRouter API call failed: " ++ message_or_unknown e0)
                   (as_cause e0)), s2).
Proof.
  intros Hprep Hcall. unfold OpenRouterService.analyzeImage. cbv zeta.
  rewrite try_catch_failed with (e := e0) (s' := s2).
  - now destruct (instanceof e0 ImageAnalysisError).
  - unfold bind. rewrite Hprep.
    subst selectedModel analysisPrompt. now rewrite Hcall.
Qed.


End RemoteClient.

Section RemoteClientResults.

Variable W : World.
Variable config : AppConfig.
Variable imageSource : ImageSource.t.
Variables model prompt : option string.

Let t : Z := timeout (openRouter config).
Let selectedModel : string := str_or model (defaultModel (openRouter config)).
Let analysisPrompt : string :=
  str_or prompt OpenRouterService.default_prompt.

Ltac break_match :=
  match goal with
  | |- context [match ?x with _ => _ end] =>
      lazymatch x with
      | context [match _ with _ => _ end] => fail
      | _ => destruct x eqn:?
      end
  end.

(** A call that returns has received, in time, a success response
    whose body parsed and holds at least one choice. *)
Lemma call_ok_inv (img p m : string) (s s' : State) (data : JsVal) :
  OpenRouterService.callOpenRouterAPI W config img p m s = (Ok data, s') ->
  exists latency response,
    network W (OpenRouterService.apiRequest config img p m)
    = (latency, Ok response) /\
    latency <= t /\ ok response = true /\ json response = Ok data /\
    truthy (js_prop data "choices") = true /\
    strict_eq_num (js_length (js_prop data "choices")) 0 = false.
Proof.
  unfold OpenRouterService.callOpenRouterAPI,
    OpenRouterService.fetch_with_signal, OpenRouterService.thrown_name,
    OpenRouterService.get_choices.
  run_io.
  destruct (network W (OpenRouterService.apiRequest config img p m))
    as [latency outcome].
  destruct (timeout (openRouter config) <? latency) eqn:Hlate; cbn.
  { discriminate. }
  apply Z.ltb_ge in Hlate.
  destruct outcome as [response|e0]; cbn.
  2:{ repeat break_match; discriminate. }
  destruct (ok response) eqn:Hok; cbn.
  2:{ repeat break_match; discriminate. }
  destruct (json response) as [data0|e0] eqn:Hjson; cbn.
  2:{ repeat break_match; discriminate. }
  destruct (nullish data0); cbn; [discriminate|].
  destruct (truthy (js_prop data0 "choices")) eqn:Hc; cbn; [|discriminate].
  destruct (strict_eq_num (js_length (js_prop data0 "choices")) 0) eqn:Hl;
    cbn; [discriminate|].
  intros [= <- _]. exists latency, response. subst t. auto 10.
Qed.


(** What a successful [analyzeImage] went through. *)
Lemma analyze_ok_inv (s s' : State) (result : ImageAnalysis.t) :
  OpenRouterService.analyzeImage W config imageSource model prompt s
  = (Ok result, s') ->
  exists img data s2,
    OpenRouterService.prepareImageForAPI W imageSource s = (Ok img, s) /\
    OpenRouterService.callOpenRouterAPI W config img analysisPrompt
      selectedModel s = (Ok data, s2) /\
    truthy (OpenRouterService.first_choice_content data) = true /\
    ImageAnalysisEntity.create W imageSource selectedModel
      (OpenRouterService.first_choice_content data) None
      (js_prop data "usage") (js_prop data "id") s2 = (Ok result, s').
Proof.
  unfold OpenRouterService.analyzeImage. cbv zeta.
  fold selectedModel analysisPrompt.
  unfold try_catch at 1, bind at 1.
  destruct (OpenRouterService.prepareImageForAPI W imageSource s)
    as [[img|e0] s1] eqn:Hprep.
  2:{ destruct (instanceof e0 ImageAnalysisError); discriminate. }
  apply prepare_keeps_state in Hprep as Hs1. subst s1.
  unfold bind at 1.
  destruct (OpenRouterService.callOpenRouterAPI W config img analysisPrompt
              selectedModel s) as [[data|e0] s2] eqn:Hcall.
  2:{ destruct (instanceof e0 ImageAnalysisError); discriminate. }
  unfold bind at 1.
  destruct (truthy (OpenRouterService.first_choice_content data)) eqn:Hc;
    cbn [negb].
  2:{ unfold throw. cbn. discriminate. }
  unfold ret at 1.
  destruct (ImageAnalysisEntity.create W imageSource selectedModel
              (OpenRouterService.first_choice_content data) None
              (js_prop data "usage") (js_prop data "id") s2)
    as [[r|e0] s3] eqn:Hcreate.
  2:{ destruct (instanceof e0 ImageAnalysisError); discriminate. }
  intros [= <- <-]. exists img, data, s2. auto.
Qed.

End RemoteClientResults.

(** ** Failures of the remote analysis (C3) *)



(** ** Request construction (C6) *)

Lemma create_keeps_trace (W : World) (imageSource : ImageSource.t)
    (model : string) (analysis : JsVal) (metadata : option ImageMetadata.t)
    (usage id : JsVal) (s s' : State) (r : Result ImageAnalysis.t) :
  ImageAnalysisEntity.create W imageSource model analysis metadata usage id s
  = (r, s') ->
  trace s' = trace s.
Proof.
  unfold ImageAnalysisEntity.create, crypto_randomUUID. run_io.
  destruct (truthy id); now intros [= _ <-].
Qed.

(** With the image prepared, [analyzeImage] issues exactly the request of
    [apiRequest]; when the preparation fails it issues none. *)
Lemma analyze_requests (W : World) (config : AppConfig)
    (imageSource : ImageSource.t) (model prompt : option string)
    (s : State) :
  requests
    (trace (snd (OpenRouterService.analyzeImage W config imageSource model
                   prompt s)))
  = match OpenRouterService.prepareImageForAPI W imageSource s with
    | (Ok img, _) =>
        (requests (trace s)
           ++ [OpenRouterService.apiRequest config img
                 (str_or prompt OpenRouterService.default_prompt)
                 (str_or model (defaultModel (openRouter config)))])%list
    | (Throw _, _) => requests (trace s)
    end.
Proof.
  unfold OpenRouterService.analyzeImage. cbv zeta.
  unfold try_catch at 1, bind at 1.
  destruct (OpenRouterService.prepareImageForAPI W imageSource s)
    as [[img|e0] s1] eqn:Hprep;
    apply prepare_keeps_state in Hprep as Hs1; subst s1.
  2:{ now destruct (instanceof e0 ImageAnalysisError). }
  unfold bind at 1.
  destruct (OpenRouterService.callOpenRouterAPI W config img _ _ s)
    as [[data|e0] s2] eqn:Hcall;
    apply call_requests in Hcall as [Hreq _].
  2:{ now destruct (instanceof e0 ImageAnalysisError). }
  unfold bind at 1.
  destruct (truthy (OpenRouterService.first_choice_content data)); cbn [negb].
  - unfold ret at 1.
    destruct (ImageAnalysisEntity.create W imageSource _ _ None _ _ s2)
      as [[r|e0] s3] eqn:Hcreate;
      apply create_keeps_trace in Hcreate.
    + cbn. congruence.
    + destruct (instanceof e0 ImageAnalysisError); cbn; congruence.
  - exact Hreq.
Qed.

(** C6, as the code has it.  An [analyzeImage] invocation whose image
    preparation succeeds issues exactly one HTTP request: a POST to
    [{baseUrl}/chat/completions] with the bearer credential, the JSON
    content type, the referer and the client title as headers and the
    body [{model, messages: [{role: user, content: [{type: text, text},
    {type: image_url, image_url: {url}}]}], max_tokens: 1000}], where
    [url] is the prepared data URL, [model] is the model argument when
    one is given (and not empty) and the configured default otherwise,
    and [text] is the prompt argument when one is given (and not empty)
    and the fixed default prompt otherwise.  An invocation whose image
    preparation fails issues no request. *)
Theorem analyze_sends_one_request :
  forall (W : World) (config : AppConfig) (imageSource : ImageSource.t)
         (model prompt : option string) (s : State),
    let run :=
      OpenRouterService.analyzeImage W config imageSource model prompt s in
    (forall img s1,
        OpenRouterService.prepareImageForAPI W imageSource s = (Ok img, s1) ->
        exists model_sent text_sent,
          requests (trace (snd run))
          = List.app (requests (trace s))
                 [{| method := "POST";
                      url := baseUrl (openRouter config) ++ "/chat/completions";
                      headers :=
                        [("Authorization",
                          "Bearer " ++ apiKey (openRouter config));
                         ("Content-Type", "application/json");
                         ("HTTP-Referer", httpReferer (openRouter config));
                         ("X-Title", "Vision MCP Server")];
                      body :=
                        Some (JObj
                          [("model", JStr model_sent);
                           ("messages", JArr
                              [JObj
                                 [("role", JStr "user");
                                  ("content", JArr
                                     [JObj [("type", JStr "text");
                                            ("text", JStr text_sent)];
                                      JObj [("type", JStr "image_url");
                                            ("image_url",
                                             JObj [("url", JStr img)])]])]]);
                           ("max_tokens", JNum 1000)]) |}] /\
          (forall m, model = Some m -> m <> "" -> model_sent = m) /\
          (model = None \/ model = Some "" ->
           model_sent = defaultModel (openRouter config)) /\
          (forall p, prompt = Some p -> p <> "" -> text_sent = p) /\
          (prompt = None \/ prompt = Some "" ->
           text_sent
           = "Analyze this image and describe what you see in detail.")) /\
    (forall e s1,
        OpenRouterService.prepareImageForAPI W imageSource s = (Throw e, s1) ->
        requests (trace (snd run)) = requests (trace s)).
Proof.
  intros W config imageSource model prompt s run. subst run.
  rewrite analyze_requests. split.
  - intros img s1 ->.
    exists (str_or model (defaultModel (openRouter config))),
           (str_or prompt OpenRouterService.default_prompt).
    split; [reflexivity|]. repeat split.
    + intros m -> Hm. now apply str_or_nonempty.
    + now intros [-> | ->].
    + intros p -> Hp. now apply str_or_nonempty.
    + now intros [-> | ->].
  - now intros e s1 ->.
Qed.

(** The one request for a 3 by 2 PNG, default model and prompt. *)
Lemma analyze_sends_one_request_witness :
  let src := Toy.loaded (Some (Toy.encode Byte.x89 3 2)) in
  exists img request,
    OpenRouterService.prepareImageForAPI Toy.world src initial_state
    = (Ok img, initial_state) /\
    requests
      (trace (snd (OpenRouterService.analyzeImage Toy.world Toy.config src
                     None None initial_state)))
    = [request] /\
    method request = "POST" /\
    url request = "https://openrouter.ai/api/v1/chat/completions" /\
    (exists sent, body request = Some sent /\
                  js_prop sent "model" = JStr "anthropic/claude-3.5-sonnet" /\
                  js_prop sent "max_tokens" = JNum 1000).
Proof.
  intros src.
  destruct (OpenRouterService.prepareImageForAPI Toy.world src initial_state)
    as [[img|e] s1] eqn:Hprep; [|vm_compute in Hprep; discriminate].
  apply prepare_keeps_state in Hprep as Hs1. subst s1.
  destruct (proj1 (analyze_sends_one_request Toy.world Toy.config src
                     None None initial_state) img initial_state Hprep)
    as (model_sent & text_sent & Hreq & _ & Hmodel & _ & _).
  rewrite (Hmodel (or_introl eq_refl)) in Hreq.
  exists img. eexists. split; [reflexivity|]. split; [exact Hreq|].
  cbn. repeat split. eexists. repeat split.
Defined.

(** C6, as stated, fails: an invocation on an image source without data,
    or with bytes that do not decode, fails before any request is made. *)
Lemma analyze_without_image_sends_nothing :
  let analyze data :=
    OpenRouterService.analyzeImage Toy.world Toy.config (Toy.loaded data)
      None None initial_state in
  failure_message (analyze None)
  = Some "Vision analysis failed: Image data is required for analysis" /\
  requests (trace (snd (analyze None))) = [] /\
  failure_class (analyze (Some Toy.json_bytes)) = Some ImageAnalysisError /\
  requests (trace (snd (analyze (Some Toy.json_bytes)))) = [].
Proof. vm_compute. repeat split. Qed.

(** ** Response mapping (C7) *)

(** C7.  A successful [analyzeImage] returns a result built from the
    parsed body [data] of the success response to its request:
    - [analysis] is the content of the first choice's message, and it is
      not empty;
    - [id] is the response's [id] when the response has one, and
      otherwise the UUID drawn from the generator at this invocation,
      which differs from every UUID drawn before;
    - [usage] is the response's [usage], as it is;
    - [model] is the configured default when no model was passed;
    - the result refers to the image source it was given. *)
Theorem analyze_result_mapping :
  forall (W : World) (config : AppConfig) (imageSource : ImageSource.t)
         (model prompt : option string) (s s' : State)
         (result : ImageAnalysis.t),
    OpenRouterService.analyzeImage W config imageSource model prompt s
    = (Ok result, s') ->
    exists img response data,
      OpenRouterService.prepareImageForAPI W imageSource s = (Ok img, s) /\
      snd (network W
             (OpenRouterService.apiRequest config img
                (str_or prompt OpenRouterService.default_prompt)
                (str_or model (defaultModel (openRouter config)))))
      = Ok response /\
      ok response = true /\
      json response = Ok data /\
      ImageAnalysis.analysis result
      = OpenRouterService.first_choice_content data /\
      (forall c rest,
          js_prop data "choices" = JArr (c :: rest) ->
          ImageAnalysis.analysis result
          = js_optional_prop (js_optional_prop c "message") "content") /\
      truthy (ImageAnalysis.analysis result) = true /\
      ImageAnalysis.analysis result <> JStr "" /\
      ImageAnalysis.analysis result <> JUndefined /\
      (truthy (js_prop data "id") = true ->
       ImageAnalysis.id result = js_prop data "id" /\ uuids s' = uuids s) /\
      (truthy (js_prop data "id") = false ->
       ImageAnalysis.id result = JStr (randomUUID W (uuids s)) /\
       uuids s' = S (uuids s) /\
       (uuids_distinct W ->
        forall k, (k < uuids s)%nat ->
                  ImageAnalysis.id result <> JStr (randomUUID W k))) /\
      ImageAnalysis.usage result = js_prop data "usage" /\
      (model = None ->
       ImageAnalysis.model result = defaultModel (openRouter config)) /\
      ImageAnalysis.imageSource result = imageSource.
Proof.
  intros W config imageSource model prompt s s' result Hrun.
  destruct (analyze_ok_inv W config imageSource model prompt _ _ _ Hrun)
    as (img & data & s2 & Hprep & Hcall & Hcontent & Hcreate).
  destruct (call_ok_inv W config _ _ _ _ _ _ Hcall)
    as (latency & response & Hnet & _ & Hok & Hjson & _).
  apply call_requests in Hcall as [_ Huuids].
  exists img, response, data.
  split; [exact Hprep|]. split; [now rewrite Hnet|].
  split; [exact Hok|]. split; [exact Hjson|].
  unfold ImageAnalysisEntity.create, crypto_randomUUID in Hcreate. run_io.
  destruct (truthy (js_prop data "id")) eqn:Hid;
    injection Hcreate as <- <-;
    cbn [ImageAnalysis.analysis ImageAnalysis.id ImageAnalysis.usage
         ImageAnalysis.model ImageAnalysis.imageSource uuids];
    (split; [reflexivity|]);
    (split; [intros c rest Hc; unfold OpenRouterService.first_choice_content;
             now rewrite Hc|]);
    (split; [exact Hcontent|]);
    (split; [intros Heq; rewrite Heq in Hcontent; discriminate|]);
    (split; [intros Heq; rewrite Heq in Hcontent; discriminate|]).
  - split; [intros _; now split|]. split; [discriminate|].
    split; [reflexivity|]. split; [now intros ->|reflexivity].
  - split; [discriminate|]. split.
    + intros _. rewrite Huuids. split; [reflexivity|]. split; [reflexivity|].
      intros Hdistinct k Hk [= Heq]. apply Hdistinct in Heq. lia.
    + split; [reflexivity|]. split; [now intros ->|reflexivity].
Qed.

(** The result for a 3 by 2 PNG when the response carries an id and
    usage counters, and when it carries no id. *)
Lemma analyze_result_mapping_witness :
  let analyze model :=
    OpenRouterService.analyzeImage Toy.world Toy.config
      (Toy.loaded (Some (Toy.encode Byte.x89 3 2))) model None
      initial_state in
  (exists result s',
      analyze None = (Ok result, s') /\
      ImageAnalysis.analysis result = JStr "A cat." /\
      ImageAnalysis.id result = JStr "gen-1" /\
      ImageAnalysis.usage result = Toy.usage_counters /\
      ImageAnalysis.model result = "anthropic/claude-3.5-sonnet") /\
  (exists result s',
      analyze (Some "m-noid") = (Ok result, s') /\
      ImageAnalysis.id result = JStr "uuid-" /\
      uuids s' = 1%nat).
Proof.
  intros analyze. subst analyze. cbv beta. split.
  - destruct (OpenRouterService.analyzeImage Toy.world Toy.config _ None None
                initial_state) as [[result|e] s'] eqn:Hrun;
      [|vm_compute in Hrun; discriminate].
    destruct (analyze_result_mapping _ _ _ _ _ _ _ _ Hrun)
      as (img & response & data & Hprep & Hnet & _ & Hjson & Hanalysis & _
          & _ & _ & _ & Hid & _ & Husage & Hmodel & _).
    cbn in Hnet. injection Hnet as <-. cbn in Hjson. injection Hjson as <-.
    exists result, s'. split; [reflexivity|].
    split; [exact Hanalysis|]. split; [exact (proj1 (Hid eq_refl))|].
    split; [exact Husage | exact (Hmodel eq_refl)].
  - destruct (OpenRouterService.analyzeImage Toy.world Toy.config _
                (Some "m-noid") None initial_state)
      as [[result|e] s'] eqn:Hrun;
      [|vm_compute in Hrun; discriminate].
    destruct (analyze_result_mapping _ _ _ _ _ _ _ _ Hrun)
      as (img & response & data & Hprep & Hnet & _ & Hjson & _ & _
          & _ & _ & _ & _ & Hnoid & _).
    cbn in Hnet. injection Hnet as <-. cbn in Hjson. injection Hjson as <-.
    exists result, s'. split; [reflexivity|].
    destruct (Hnoid eq_refl) as (Hid & Hcount & _).
    split; [exact Hid | exact Hcount].
Defined.

(** * Further properties of the code *)

(** Case analysis on an innermost scrutinee of the goal. *)
Ltac break_inner :=
  match goal with
  | |- context [match ?x with _ => _ end] =>
      lazymatch x with
      | context [match _ with _ => _ end] => fail
      | _ => destruct x eqn:?
      end
  end.

(** ** What a loaded image source is *)

(** Bytes that pass validation decode, to a supported format, within the
    size limit, with positive dimensions. *)
Lemma passes_validation_inv (W : World) (config : AppConfig) (data : Buffer) :
  passes_validation W config data = true ->
  exists m f w h,
    sharp_metadata W data = Ok m /\
    Sharp.format m = Some f /\ f <> "" /\
    In f (supportedFormats (image config)) /\
    buffer_length data <= maxSizeBytes (image config) /\
    Sharp.width m = Some w /\ Sharp.height m = Some h /\
    1 <= w /\ 1 <= h.
Proof.
  unfold passes_validation, ImageProcessor.validateImage. run_io.
  destruct (sharp_metadata W data) as [m|e]; [|discriminate]. cbn.
  destruct (truthy_str (Sharp.format m)) eqn:Hf; [|discriminate]. cbn.
  apply truthy_str_Some in Hf. destruct Hf as (f & Hf & Hne).
  rewrite Hf, (str_or_nonempty f "" Hne).
  destruct (array_includes (supportedFormats (image config)) f) eqn:Hin;
    [|discriminate]. cbn.
  destruct (maxSizeBytes (image config) <? buffer_length data) eqn:Hsz;
    [discriminate|]. cbn.
  destruct (truthy_num (Sharp.width m)) eqn:Hw; [|discriminate].
  destruct (truthy_num (Sharp.height m)) eqn:Hh; [|discriminate]. cbn.
  apply truthy_num_Some in Hw, Hh.
  destruct Hw as (w & Hw & Hw0). destruct Hh as (h & Hh & Hh0).
  rewrite Hw, Hh, (num_or_nonzero w 0 Hw0), (num_or_nonzero h 0 Hh0).
  destruct (w <? 1) eqn:Hw1; [discriminate|].
  destruct (h <? 1) eqn:Hh1; [discriminate|]. intros _.
  apply array_includes_In in Hin. apply Z.ltb_ge in Hsz, Hw1, Hh1.
  exists m, f, w, h. auto 10.
Qed.

(** [extractMetadata] on bytes that pass validation. *)
Lemma extract_after_validation (W : World) (config : AppConfig)
    (data : Buffer) (s : State) :
  passes_validation W config data = true ->
  exists m f w h md,
    sharp_metadata W data = Ok m /\
    Sharp.format m = Some f /\ Sharp.width m = Some w /\
    Sharp.height m = Some h /\
    In f (supportedFormats (image config)) /\
    buffer_length data <= maxSizeBytes (image config) /\
    1 <= w /\ 1 <= h /\
    ImageProcessor.extractMetadata W data s = (Ok md, s) /\
    ImageMetadata.width md = Some w /\ ImageMetadata.height md = Some h /\
    ImageMetadata.format md = Some f /\
    ImageMetadata.size md = Some (buffer_length data).
Proof.
  intros Hval.
  destruct (passes_validation_inv W config data Hval)
    as (m & f & w & h & Hm & Hf & Hne & Hin & Hsz & Hw & Hh & Hw1 & Hh1).
  exists m, f, w, h. eexists.
  repeat (split; [eassumption|]).
  unfold ImageProcessor.extractMetadata. run_io. rewrite Hm.
  split; [reflexivity|]. cbn. rewrite Hw, Hh, Hf.
  rewrite !num_or_nonzero by lia. now rewrite str_or_nonempty.
Qed.

(** The shape of what [loadImage] returns, and what it did to get it. *)
Lemma load_ok_shape (W : World) (config : AppConfig) (source : string)
    (s s' : State) (src : ImageSource.t) :
  ImageProcessor.loadImage W config source s = (Ok src, s') ->
  exists data md,
    src = {| ImageSource.type :=
               if ImageProcessor.isUrl W source then url_ else file;
             ImageSource.path :=
               Some (if ImageProcessor.isUrl W source then source
                     else path_resolve W source);
             ImageSource.data := Some data;
             ImageSource.url := None;
             ImageSource.metadata := Some md |} /\
    passes_validation W config data = true /\
    ImageProcessor.extractMetadata W data s' = (Ok md, s') /\
    trace s'
    = (trace s ++ (if ImageProcessor.isUrl W source
                   then [EvFetch (ImageProcessor.get_request source)]
                   else []))%list /\
    uuids s' = uuids s.
Proof.
  unfold ImageProcessor.loadImage, try_catch.
  destruct (ImageProcessor.isUrl W source) eqn:Hurl.
  - unfold ImageProcessor.loadFromUrl. run_io.
    destruct (snd (network W (ImageProcessor.get_request source)))
      as [response|e]; cbv beta iota; cbn [negb].
    2:{ repeat break_inner; discriminate. }
    destruct (ok response); cbv beta iota; cbn [negb].
    2:{ repeat break_inner; discriminate. }
    destruct (arrayBuffer response) as [data|e]; cbv beta iota; cbn [negb].
    2:{ repeat break_inner; discriminate. }
    rewrite validateImage_run.
    destruct (passes_validation W config data) eqn:Hval;
      cbv beta iota; cbn [negb].
    2:{ repeat break_inner; discriminate. }
    destruct (extract_after_validation W config data
                {| trace := trace s ++ [EvFetch (ImageProcessor.get_request source)];
                   uuids := uuids s |} Hval)
      as (m & f & w & h & md & _ & _ & _ & _ & _ & _ & _ & _ & Hext & _).
    rewrite Hext. intros [= <- <-]. exists data, md. cbn. auto.
  - unfold ImageProcessor.loadFromFile. run_io.
    destruct (fs_access W source) as [[]|e]; cbv beta iota; cbn [negb].
    2:{ repeat break_inner; discriminate. }
    destruct (readFileSync W source) as [data|e]; cbv beta iota; cbn [negb].
    2:{ repeat break_inner; discriminate. }
    rewrite validateImage_run.
    destruct (passes_validation W config data) eqn:Hval;
      cbv beta iota; cbn [negb].
    2:{ repeat break_inner; discriminate. }
    destruct (extract_after_validation W config data s Hval)
      as (m & f & w & h & md & _ & _ & _ & _ & _ & _ & _ & _ & Hext & _).
    rewrite Hext. intros [= <- <-]. exists data, md. cbn.
    rewrite app_nil_r. auto.
Qed.



(** ** The orchestrator with the real collaborators *)

Lemma extract_keeps_state (W : World) (data : Buffer) (s s' : State)
    (r : Result ImageMetadata.t) :
  ImageProcessor.extractMetadata W data s = (r, s') -> s' = s.
Proof.
  unfold ImageProcessor.extractMetadata. run_io.
  destruct (sharp_metadata W data); now intros [= _ <-].
Qed.

(** The events of a load, whatever its outcome. *)
Lemma load_trace (W : World) (config : AppConfig) (source : string)
    (s s' : State) (r : Result ImageSource.t) :
  ImageProcessor.loadImage W config source s = (r, s') ->
  trace s'
  = (trace s ++ (if ImageProcessor.isUrl W source
                 then [EvFetch (ImageProcessor.get_request source)]
                 else []))%list /\
  uuids s' = uuids s.
Proof.
  unfold ImageProcessor.loadImage, try_catch.
  destruct (ImageProcessor.isUrl W source) eqn:Hurl.
  - unfold ImageProcessor.loadFromUrl. run_io.
    destruct (snd (network W (ImageProcessor.get_request source)))
      as [response|e]; cbv beta iota; cbn [negb].
    2:{ repeat break_inner; now intros [= _ <-]. }
    destruct (ok response); cbv beta iota; cbn [negb].
    2:{ repeat break_inner; now intros [= _ <-]. }
    destruct (arrayBuffer response) as [data|e]; cbv beta iota; cbn [negb].
    2:{ repeat break_inner; now intros [= _ <-]. }
    rewrite validateImage_run.
    destruct (passes_validation W config data); cbv beta iota; cbn [negb].
    2:{ repeat break_inner; now intros [= _ <-]. }
    destruct (ImageProcessor.extractMetadata W data _) as [rm sm] eqn:Hext.
    apply extract_keeps_state in Hext. subst sm.
    destruct rm; cbv beta iota.
    + now intros [= _ <-].
    + repeat break_inner; now intros [= _ <-].
  - unfold ImageProcessor.loadFromFile. run_io.
    destruct (fs_access W source) as [[]|e]; cbv beta iota; cbn [negb].
    2:{ repeat break_inner; intros [= _ <-]; cbn; now rewrite app_nil_r. }
    destruct (readFileSync W source) as [data|e]; cbv beta iota; cbn [negb].
    2:{ repeat break_inner; intros [= _ <-]; cbn; now rewrite app_nil_r. }
    rewrite validateImage_run.
    destruct (passes_validation W config data); cbv beta iota; cbn [negb].
    2:{ repeat break_inner; intros [= _ <-]; cbn; now rewrite app_nil_r. }
    destruct (ImageProcessor.extractMetadata W data _) as [rm sm] eqn:Hext.
    apply extract_keeps_state in Hext. subst sm.
    destruct rm; cbv beta iota.
    + intros [= _ <-]; cbn; now rewrite app_nil_r.
    + repeat break_inner; intros [= _ <-]; cbn; now rewrite app_nil_r.
Qed.

(** A failed load fails with one of the loader's three error classes. *)
Lemma load_failure_classes (W : World) (config : AppConfig) (source : string)
    (s s' : State) (e : Thrown) :
  ImageProcessor.loadImage W config source s = (Throw e, s') ->
  instanceof e ImageAnalysisError = false /\
  as_cause e = Some e /\
  (instanceof e ImageNotFoundError = true \/
   instanceof e InvalidImageError = true \/
   instanceof e ImageProcessingError = true).
Proof.
  unfold ImageProcessor.loadImage.
  refine (try_catch_throws _ _
            (fun e => instanceof e ImageAnalysisError = false /\
                      as_cause e = Some e /\
                      (instanceof e ImageNotFoundError = true \/
                       instanceof e InvalidImageError = true \/
                       instanceof e ImageProcessingError = true)) _ s e s').
  intros e0 s0 e1 s1.
  destruct (instanceof e0 ImageNotFoundError) eqn:Hn; cbn [orb].
  - intros [= <- _]. destruct e0 as [c ? ? ? ?|]; [|discriminate].
    destruct c; try discriminate. auto.
  - destruct (instanceof e0 InvalidImageError) eqn:Hi.
    + intros [= <- _]. destruct e0 as [c ? ? ? ?|]; [|discriminate].
      destruct c; try discriminate. auto.
    + intros [= <- _]. cbn. auto.
Qed.

(** After a successful load, [execute] is [analyzeImage]. *)
Lemma execute_load_ok (W : World) (config : AppConfig) (source : string)
    (model prompt : option string) (s s1 : State) (src : ImageSource.t) :
  ImageProcessor.loadImage W config source s = (Ok src, s1) ->
  AnalyzeImageUseCase.execute (the_ImageProcessor W config)
    (the_OpenRouterService W config) source model prompt s
  = OpenRouterService.analyzeImage W config src model prompt s1.
Proof.
  intros Hload.
  destruct (load_ok_shape W config source s s1 src Hload)
    as (data & md & Hsrc & Hval & _).
  unfold AnalyzeImageUseCase.execute, try_catch, bind.
  cbn -[OpenRouterService.analyzeImage ImageProcessor.loadImage
        ImageProcessor.validateImage instanceof new_ImageAnalysisError
        new_ImageProcessingError].
  assert (Hdata : ImageSource.data src = Some data) by now rewrite Hsrc.
  clear Hsrc. rewrite Hload, Hdata.
  rewrite validateImage_run, Hval. cbn [negb]. unfold ret at 1.
  destruct (OpenRouterService.analyzeImage W config src model prompt s1)
    as [[r|e] s2] eqn:Hrun; [reflexivity|].
  apply analyze_failure_closed in Hrun. rewrite Hrun.
  now rewrite orb_true_r.
Qed.

(** After a failed load, [execute] rethrows or wraps the failure. *)
Lemma execute_load_failed (W : World) (config : AppConfig) (source : string)
    (model prompt : option string) (s s1 : State) (e : Thrown) :
  ImageProcessor.loadImage W config source s = (Throw e, s1) ->
  AnalyzeImageUseCase.execute (the_ImageProcessor W config)
    (the_OpenRouterService W config) source model prompt s
  = (Throw (if instanceof e ImageProcessingError then e
            else new_ImageAnalysisError
                   "Unexpected error during vision analysis" (Some e)), s1).
Proof.
  intros Hload.
  destruct (load_failure_classes W config source s s1 e Hload)
    as (Ha & Hcause & _).
  destruct (instanceof e ImageProcessingError) eqn:Hp.
  - unfold AnalyzeImageUseCase.execute.
    rewrite try_catch_failed with (e := e) (s' := s1).
    + now rewrite Hp.
    + unfold bind. cbn -[ImageProcessor.loadImage]. now rewrite Hload.
  - rewrite <- Hcause.
    now apply execute_wraps_other_failures.
Qed.

(** X2.  With the image processor and the analysis service of this
    repository, [execute] is the load followed by the analysis: when the
    load succeeds, the outcome of [execute] is the outcome of
    [analyzeImage] on the loaded source (its own checks of the data never
    fire); when the load fails with an [ImageProcessingError] that error
    is the outcome, and any other load failure comes out wrapped in an
    [ImageAnalysisError] with the load failure as cause. *)
Theorem execute_is_load_then_analyze :
  forall (W : World) (config : AppConfig) (source : string)
         (model prompt : option string) (s : State),
    let run :=
      AnalyzeImageUseCase.execute (the_ImageProcessor W config)
        (the_OpenRouterService W config) source model prompt s in
    (forall src s1,
        ImageProcessor.loadImage W config source s = (Ok src, s1) ->
        run = OpenRouterService.analyzeImage W config src model prompt s1) /\
    (forall e s1,
        ImageProcessor.loadImage W config source s = (Throw e, s1) ->
        run = (Throw (if instanceof e ImageProcessingError then e
                      else new_ImageAnalysisError
                             "Unexpected error during vision analysis"
                             (Some e)), s1)).
Proof.
  intros W config source model prompt s run. subst run. split.
  - intros src s1 Hload. now apply execute_load_ok.
  - intros e s1 Hload. now apply execute_load_failed.
Qed.

(** Loading and analysing a PNG file, and a URL that answers 404. *)
Lemma execute_is_load_then_analyze_witness :
  let execute source :=
    AnalyzeImageUseCase.execute (the_ImageProcessor Toy.world Toy.config)
      (the_OpenRouterService Toy.world Toy.config) source None None
      initial_state in
  (exists src,
      execute "small.png"
      = OpenRouterService.analyzeImage Toy.world Toy.config src None None
          initial_state) /\
  failure_class (execute "https://host/missing.png")
  = Some ImageProcessingError.
Proof.
  intros execute. subst execute. cbv beta. split.
  - destruct (ImageProcessor.loadImage Toy.world Toy.config "small.png"
                initial_state) as [[src|e] s1] eqn:Hload;
      [|vm_compute in Hload; discriminate].
    assert (Hs : s1 = initial_state).
    { vm_compute in Hload. now injection Hload as _ <-. }
    subst s1. exists src.
    exact (proj1 (execute_is_load_then_analyze Toy.world Toy.config
                    "small.png" None None initial_state) src _ Hload).
  - destruct (ImageProcessor.loadImage Toy.world Toy.config
                "https://host/missing.png" initial_state)
      as [[src|e] s1] eqn:Hload; [vm_compute in Hload; discriminate|].
    rewrite (proj2 (execute_is_load_then_analyze Toy.world Toy.config
                      "https://host/missing.png" None None initial_state)
               e s1 Hload).
    vm_compute in Hload. injection Hload as <- _. reflexivity.
Defined.

(** X3.  What [execute] sends over the network.  When the load fails,
    nothing is sent to the analysis endpoint: the only request, if any, is
    the GET of a URL source.  When the load succeeds, that optional GET is
    followed by at most one POST to the endpoint, and by exactly one when
    [execute] succeeds. *)
Theorem execute_requests :
  forall (W : World) (config : AppConfig) (source : string)
         (model prompt : option string) (s : State),
    let run :=
      AnalyzeImageUseCase.execute (the_ImageProcessor W config)
        (the_OpenRouterService W config) source model prompt s in
    let gets :=
      if ImageProcessor.isUrl W source
      then [ImageProcessor.get_request source] else [] in
    (forall e s1,
        ImageProcessor.loadImage W config source s = (Throw e, s1) ->
        requests (trace (snd run)) = (requests (trace s) ++ gets)%list) /\
    (forall src s1,
        ImageProcessor.loadImage W config source s = (Ok src, s1) ->
        exists posts,
          requests (trace (snd run)) = (requests (trace s) ++ gets ++ posts)%list /\
          (posts = [] \/
           exists img,
             posts = [OpenRouterService.apiRequest config img
                        (str_or prompt OpenRouterService.default_prompt)
                        (str_or model (defaultModel (openRouter config)))]) /\
          (forall result, fst run = Ok result -> posts <> [])).
Proof.
  intros W config source model prompt s run gets. subst run.
  assert (Hgets : forall r s1,
             ImageProcessor.loadImage W config source s = (r, s1) ->
             requests (trace s1) = (requests (trace s) ++ gets)%list).
  { intros r s1 Hload. apply load_trace in Hload as [-> _].
    rewrite requests_app. subst gets.
    now destruct (ImageProcessor.isUrl W source). }
  split.
  - intros e s1 Hload. rewrite (execute_load_failed _ _ _ _ _ _ _ _ Hload).
    cbn [snd]. exact (Hgets _ _ Hload).
  - intros src s1 Hload. rewrite (execute_load_ok _ _ _ _ _ _ _ _ Hload).
    rewrite analyze_requests, (Hgets _ _ Hload).
    destruct (OpenRouterService.prepareImageForAPI W src s1)
      as [[img|e] s2] eqn:Hprep.
    + eexists. split; [now rewrite <- app_assoc|]. split.
      * right. now exists img.
      * discriminate.
    + exists []. split; [now rewrite app_nil_r|]. split; [now left|].
      intros result Hok.
      unfold OpenRouterService.analyzeImage, try_catch, bind in Hok.
      rewrite Hprep in Hok.
      now destruct (instanceof e ImageAnalysisError).
Qed.

(** A URL source: the GET, then the POST; a missing file: nothing. *)
Lemma execute_requests_witness :
  let run source :=
    AnalyzeImageUseCase.execute (the_ImageProcessor Toy.world Toy.config)
      (the_OpenRouterService Toy.world Toy.config) source None None
      initial_state in
  requests (trace (snd (run "missing.png"))) = [] /\
  exists posts,
    requests (trace (snd (run "https://host/x.png")))
    = (ImageProcessor.get_request "https://host/x.png" :: posts) /\
    posts <> [].
Proof.
  intros run. subst run. cbv beta. split.
  - destruct (ImageProcessor.loadImage Toy.world Toy.config "missing.png"
                initial_state) as [[src|e] s1] eqn:Hload;
      [vm_compute in Hload; discriminate|].
    exact (proj1 (execute_requests Toy.world Toy.config "missing.png"
                    None None initial_state) e s1 Hload).
  - destruct (ImageProcessor.loadImage Toy.world Toy.config
                "https://host/x.png" initial_state)
      as [[src|e] s1] eqn:Hload; [|vm_compute in Hload; discriminate].
    destruct (proj2 (execute_requests Toy.world Toy.config
                       "https://host/x.png" None None initial_state)
                src s1 Hload) as (posts & Hreq & _ & Hsome).
    exists posts. split; [exact Hreq|].
    destruct (fst (AnalyzeImageUseCase.execute
                     (the_ImageProcessor Toy.world Toy.config)
                     (the_OpenRouterService Toy.world Toy.config)
                     "https://host/x.png" None None initial_state))
      as [result|e] eqn:Hrun; [|vm_compute in Hrun; discriminate].
    exact (Hsome result eq_refl).
Defined.

(** X4.  A timeout of the remote call as [execute] reports it: when the
    image was loaded and prepared and the network does not settle within
    the configured timeout, [execute] fails with an [ImageAnalysisError]
    whose message names the timeout, after the request was aborted. *)
Theorem execute_times_out :
  forall (W : World) (config : AppConfig) (source : string)
         (model prompt : option string) (s s1 s2 : State)
         (src : ImageSource.t) (img : string)
         (latency : Z) (outcome : Result Response),
    ImageProcessor.loadImage W config source s = (Ok src, s1) ->
    OpenRouterService.prepareImageForAPI W src s1 = (Ok img, s2) ->
    let request :=
      OpenRouterService.apiRequest config img
        (str_or prompt OpenRouterService.default_prompt)
        (str_or model (defaultModel (openRouter config))) in
    network W request = (latency, outcome) ->
    timeout (openRouter config) < latency ->
    exists e s',
      AnalyzeImageUseCase.execute (the_ImageProcessor W config)
        (the_OpenRouterService W config) source model prompt s
      = (Throw e, s') /\
      instanceof e ImageAnalysisError = true /\
      error_message e
      = "Vision analysis failed: OpenRouter API call failed: Request timeout after "
          ++ string_of_Z (timeout (openRouter config)) ++ "ms" /\
      trace s'
      = (trace s1
           ++ [EvSetTimeout (timeout (openRouter config)); EvFetch request;
               EvAbort; EvClearTimeout])%list.
Proof.
  intros W config source model prompt s s1 s2 src img latency outcome
         Hload Hprep request Hnet Hlate. subst request.
  rewrite (execute_load_ok _ _ _ _ _ _ _ _ Hload).
  pose proof (call_timed_out W config img _ _ s2 _ _ Hnet Hlate) as Hcall.
  pose proof (analyze_call_failed W config src model prompt
                _ _ _ _ _ Hprep Hcall) as Hrun.
  apply prepare_keeps_state in Hprep. subst s2.
  do 2 eexists. split; [exact Hrun|]. repeat split.
Qed.

(** A URL source analysed with a model the endpoint answers too late. *)
Lemma execute_times_out_witness :
  exists e s',
    AnalyzeImageUseCase.execute (the_ImageProcessor Toy.world Toy.config)
      (the_OpenRouterService Toy.world Toy.config) "https://host/x.png"
      (Some "m-slow") None initial_state = (Throw e, s') /\
    instanceof e ImageAnalysisError = true /\
    error_message e
    = "Vision analysis failed: OpenRouter API call failed: Request timeout after 30000ms".
Proof.
  destruct (ImageProcessor.loadImage Toy.world Toy.config "https://host/x.png"
              initial_state) as [[src|e] s1] eqn:Hload;
    [|vm_compute in Hload; discriminate].
  destruct (OpenRouterService.prepareImageForAPI Toy.world src s1)
    as [[img|e] s2] eqn:Hprep.
  2:{ vm_compute in Hload. injection Hload as <- <-.
      vm_compute in Hprep. discriminate. }
  destruct (execute_times_out Toy.world Toy.config "https://host/x.png"
              (Some "m-slow") None _ _ _ _ _ 60000 _ Hload Hprep
              eq_refl eq_refl)
    as (e & s' & Hrun & Hclass & Hmsg & _).
  exists e, s'. split; [exact Hrun|]. split; [exact Hclass | exact Hmsg].
Defined.

(** ** The controller *)

(** X5.  The controller never throws, whatever its collaborators do.  A
    request without a source is answered with [INVALID_REQUEST] without
    any effect, and the code of every error response is one of
    [INVALID_REQUEST], [IMAGE_PROCESSING_ERROR] and [ANALYSIS_ERROR]:
    the codes [IMAGE_NOT_FOUND], [INVALID_IMAGE] and [INTERNAL_ERROR] of
    [handleError] are never returned. *)
Theorem controller_codes_closed :
  forall (imageProcessor : IImageProcessor)
         (imageAnalysisService : IImageAnalysisService)
         (request : AnalyzeImageRequest) (s : State),
    exists response s',
      ImageAnalysisController.analyzeImage imageProcessor imageAnalysisService
        request s = (Ok response, s') /\
      (source request = "" ->
       s' = s /\
       response = Failure {| code := "INVALID_REQUEST";
                             message := "Image source is required";
                             details := None |}) /\
      (forall failure,
          response = Failure failure ->
          code failure = "INVALID_REQUEST" \/
          code failure = "IMAGE_PROCESSING_ERROR" \/
          code failure = "ANALYSIS_ERROR").
Proof.
  intros imageProcessor imageAnalysisService request s.
  unfold ImageAnalysisController.analyzeImage, try_catch.
  destruct (String.eqb_spec (source request) "") as [Hempty|Hsource].
  - do 2 eexists. split; [reflexivity|]. split; [auto|].
    intros failure [= <-]. now left.
  - unfold bind.
    destruct (AnalyzeImageUseCase.execute imageProcessor imageAnalysisService
                (source request) (model request) (prompt request) s)
      as [[result|e] s0] eqn:Hrun.
    + do 2 eexists. split; [reflexivity|]. split; [contradiction|].
      discriminate.
    + do 2 eexists. split; [reflexivity|]. split; [contradiction|].
      intros failure Hresp. right.
      apply execute_failure_closed in Hrun. rewrite handleError_by_class in Hresp.
      destruct Hrun as [Hp | Ha]; apply instanceof_class in Hp || apply instanceof_class in Ha.
      * rewrite Hp in Hresp. injection Hresp as <-. now left.
      * rewrite Ha in Hresp. injection Hresp as <-. now right.
Qed.

(** X6.  With the collaborators of this repository, a success response
    describes the image as it was loaded: its metadata and its source
    type and path are those of the source [loadImage] returned (so the
    size is the byte length of the original data, not of what was sent),
    and its model is the requested one, or the configured default when
    none was requested. *)
Theorem controller_success_describes_loaded_image :
  forall (W : World) (config : AppConfig) (request : AnalyzeImageRequest)
         (s s' : State) (data : ResponseData),
    ImageAnalysisController.analyzeImage (the_ImageProcessor W config)
      (the_OpenRouterService W config) request s = (Ok (Success data), s') ->
    exists src s1 bytes md,
      ImageProcessor.loadImage W config (source request) s = (Ok src, s1) /\
      ImageSource.data src = Some bytes /\
      metadata data = Some md /\
      ImageSource.metadata src = Some md /\
      ImageMetadata.size md = Some (buffer_length bytes) /\
      source_type data = ImageSource.type src /\
      source_path data = ImageSource.path src /\
      model_used data
      = str_or (model request) (defaultModel (openRouter config)).
Proof.
  intros W config request s s' data.
  unfold ImageAnalysisController.analyzeImage, try_catch.
  destruct (String.eqb (source request) ""); [discriminate|].
  unfold bind.
  destruct (AnalyzeImageUseCase.execute (the_ImageProcessor W config)
              (the_OpenRouterService W config) (source request)
              (model request) (prompt request) s)
    as [[result|e] s0] eqn:Hrun.
  2:{ unfold ret. rewrite handleError_by_class.
      repeat break_inner; discriminate. }
  intros [= <- <-].
  destruct (ImageProcessor.loadImage W config (source request) s)
    as [[src|e] s1] eqn:Hload.
  2:{ rewrite (execute_load_failed _ _ _ _ _ _ _ _ Hload) in Hrun.
      discriminate. }
  rewrite (execute_load_ok _ _ _ _ _ _ _ _ Hload) in Hrun.
  destruct (load_ok_shape _ _ _ _ _ _ Hload)
    as (bytes & md & Hsrc & Hval & Hext & _).
  destruct (extract_after_validation W config bytes s1 Hval)
    as (m & f & w & h & md' & _ & _ & _ & _ & _ & _ & _ & _
        & Hext' & _ & _ & _ & Hsize).
  rewrite Hext in Hext'. injection Hext' as <-.
  destruct (analyze_ok_inv _ _ _ _ _ _ _ _ Hrun)
    as (img & body & s2 & _ & _ & _ & Hcreate).
  unfold ImageAnalysisEntity.create, crypto_randomUUID in Hcreate. run_io.
  exists src, s1, bytes, md. split; [reflexivity|].
  destruct (truthy (js_prop body "id")); injection Hcreate as <- _;
    cbn; rewrite Hsrc; cbn; auto 10.
Qed.

(** The response for a PNG file. *)
Lemma controller_success_describes_loaded_image_witness :
  exists data s',
    ImageAnalysisController.analyzeImage
      (the_ImageProcessor Toy.world Toy.config)
      (the_OpenRouterService Toy.world Toy.config)
      {| source := "small.png"; model := None; prompt := None |}
      initial_state = (Ok (Success data), s') /\
    source_type data = file /\
    source_path data = Some "/work/small.png" /\
    model_used data = "anthropic/claude-3.5-sonnet" /\
    exists md, metadata data = Some md /\ ImageMetadata.size md = Some 6.
Proof.
  destruct (ImageAnalysisController.analyzeImage
              (the_ImageProcessor Toy.world Toy.config)
              (the_OpenRouterService Toy.world Toy.config)
              {| source := "small.png"; model := None; prompt := None |}
              initial_state) as [[[data|failure]|e] s'] eqn:Hrun;
    [|vm_compute in Hrun; discriminate|vm_compute in Hrun; discriminate].
  destruct (controller_success_describes_loaded_image _ _ _ _ _ _ Hrun)
    as (src & s1 & bytes & md & Hload & Hbytes & Hmd & _ & Hsize & Htype
        & Hpath & Hmodel).
  vm_compute in Hload. injection Hload as <- <-.
  cbn in Hbytes. injection Hbytes as <-.
  exists data, s'. split; [reflexivity|]. split; [exact Htype|].
  split; [exact Hpath|]. split; [exact Hmodel|].
  exists md. split; [exact Hmd | exact Hsize].
Defined.

(** An empty source, and a source that does not exist. *)
Lemma controller_codes_closed_witness :
  let handle source :=
    ImageAnalysisController.analyzeImage
      (the_ImageProcessor Toy.world Toy.config)
      (the_OpenRouterService Toy.world Toy.config)
      {| source := source; model := None; prompt := None |} initial_state in
  fst (handle "")
  = Ok (Failure {| code := "INVALID_REQUEST";
                   message := "Image source is required";
                   details := None |}) /\
  exists failure,
    fst (handle "missing.png") = Ok (Failure failure) /\
    (code failure = "INVALID_REQUEST" \/
     code failure = "IMAGE_PROCESSING_ERROR" \/
     code failure = "ANALYSIS_ERROR").
Proof.
  intros handle. subst handle. cbv beta. split.
  - destruct (controller_codes_closed
                (the_ImageProcessor Toy.world Toy.config)
                (the_OpenRouterService Toy.world Toy.config)
                {| source := ""; model := None; prompt := None |}
                initial_state) as (response & s' & Hrun & Hempty & _).
    rewrite Hrun. cbn [fst]. now rewrite (proj2 (Hempty eq_refl)).
  - destruct (controller_codes_closed
                (the_ImageProcessor Toy.world Toy.config)
                (the_OpenRouterService Toy.world Toy.config)
                {| source := "missing.png"; model := None; prompt := None |}
                initial_state) as (response & s' & Hrun & _ & Hcodes).
    rewrite Hrun. cbn [fst].
    destruct response as [data|failure];
      [vm_compute in Hrun; discriminate|].
    exists failure. split; [reflexivity|]. exact (Hcodes failure eq_refl).
Defined.

(** The shape of a load failure: the loader's own not-found and invalid
    errors, or a processing error that wraps the processing error of the
    file or URL branch. *)
Lemma load_failure_shape (W : World) (config : AppConfig) (source : string)
    (s s1 : State) (e : Thrown) :
  ImageProcessor.loadImage W config source s = (Throw e, s1) ->
  ((instanceof e ImageNotFoundError = true \/
    instanceof e InvalidImageError = true) /\
   instanceof e ImageProcessingError = false) \/
  exists cause,
    e = new_ImageProcessingError
          ("Failed to load image from source: " ++ source)
          (Some (new_ImageProcessingError
                   ((if ImageProcessor.isUrl W source
                     then "Failed to load image from URL: "
                     else "Failed to load file: ") ++ source) cause)).
Proof.
  set (inner := fun e0 : Thrown =>
         instanceof e0 ImageNotFoundError = true \/
         instanceof e0 InvalidImageError = true \/
         exists cause,
           e0 = new_ImageProcessingError
                  ((if ImageProcessor.isUrl W source
                    then "Failed to load image from URL: "
                    else "Failed to load file: ") ++ source) cause).
  assert (Hbranch : forall e0 s0,
             (if ImageProcessor.isUrl W source
              then ImageProcessor.loadFromUrl W config source
              else ImageProcessor.loadFromFile W config source) s
             = (Throw e0, s0) -> inner e0).
  { intros e0 s0. subst inner.
    destruct (ImageProcessor.isUrl W source).
    - unfold ImageProcessor.loadFromUrl.
      refine (try_catch_throws _ _
                (fun e0 =>
                   instanceof e0 ImageNotFoundError = true \/
                   instanceof e0 InvalidImageError = true \/
                   exists cause,
                     e0 = new_ImageProcessingError
                            ("Failed to load image from URL: " ++ source)
                            cause) _ s e0 s0).
      intros e1 s2 e2 s3.
      destruct (instanceof e1 InvalidImageError) eqn:Hi; intros [= <- _]; eauto.
    - unfold ImageProcessor.loadFromFile.
      refine (try_catch_throws _ _
                (fun e0 =>
                   instanceof e0 ImageNotFoundError = true \/
                   instanceof e0 InvalidImageError = true \/
                   exists cause,
                     e0 = new_ImageProcessingError
                            ("Failed to load file: " ++ source) cause)
                _ s e0 s0).
      intros e1 s2 e2 s3.
      destruct (instanceof_Error e1 && includes "ENOENT" (error_message e1)).
      { intros [= <- _]. now left. }
      destruct (instanceof e1 InvalidImageError) eqn:Hi; intros [= <- _]; eauto. }
  unfold ImageProcessor.loadImage, try_catch.
  destruct ((if ImageProcessor.isUrl W source
             then ImageProcessor.loadFromUrl W config source
             else ImageProcessor.loadFromFile W config source) s)
    as [[src|e0] s0] eqn:Hrun; [discriminate|].
  specialize (Hbranch e0 s0 eq_refl). subst inner. cbv beta in Hbranch.
  destruct (instanceof e0 ImageNotFoundError) eqn:Hn; cbn [orb].
  { intros [= <- _]. left. split; [now left|].
    destruct e0 as [c ? ? ? ?|]; [|discriminate]. now destruct c. }
  destruct (instanceof e0 InvalidImageError) eqn:Hi.
  { intros [= <- _]. left. split; [now right|].
    destruct e0 as [c ? ? ? ?|]; [|discriminate]. now destruct c. }
  destruct Hbranch as [H|[H|[cause ->]]]; try congruence.
  intros [= <- _]. right. now exists cause.
Qed.

(** X7.  What a caller learns about a failed load, with the collaborators
    of this repository.  When the loader fails with a processing error,
    the response has code [IMAGE_PROCESSING_ERROR], the message of the
    outer wrapper and, as cause, the message of the inner wrapper: the
    text of the original failure (an errno message, an HTTP status) is
    not forwarded.  When the loader fails with its not-found or
    invalid-image error, the response has code [ANALYSIS_ERROR], the
    orchestrator's fixed message and, as cause, the loader's message. *)
Theorem controller_load_failure_response :
  forall (W : World) (config : AppConfig) (request : AnalyzeImageRequest)
         (s s1 : State) (e : Thrown),
    source request <> "" ->
    ImageProcessor.loadImage W config (source request) s = (Throw e, s1) ->
    ImageAnalysisController.analyzeImage (the_ImageProcessor W config)
      (the_OpenRouterService W config) request s
    = (Ok (Failure
             (if instanceof e ImageProcessingError
              then {| code := "IMAGE_PROCESSING_ERROR";
                      message :=
                        "Image processing failed: Failed to load image from source: "
                          ++ source request;
                      details :=
                        Some (DetailsCause
                                (Some ("Image processing failed: "
                                         ++ (if ImageProcessor.isUrl W
                                                  (source request)
                                             then "Failed to load image from URL: "
                                             else "Failed to load file: ")
                                         ++ source request))) |}
              else {| code := "ANALYSIS_ERROR";
                      message :=
                        "Vision analysis failed: Unexpected error during vision analysis";
                      details :=
                        Some (DetailsCause (Some (error_message e))) |})),
       s1).
Proof.
  intros W config request s s1 e Hsource Hload.
  unfold ImageAnalysisController.analyzeImage, try_catch.
  apply String.eqb_neq in Hsource. rewrite Hsource. unfold bind.
  rewrite (execute_load_failed _ _ _ _ _ _ _ _ Hload). unfold ret.
  destruct (load_failure_shape _ _ _ _ _ _ Hload)
    as [[Hkind Hp] | [cause ->]].
  - rewrite Hp.
    destruct e as [c n m st ca|v]; [|destruct Hkind; discriminate].
    reflexivity.
  - destruct (ImageProcessor.isUrl W (source request)); reflexivity.
Qed.

(** A URL answering 404 and a missing file, as the caller sees them. *)
Lemma controller_load_failure_response_witness :
  let handle source :=
    fst (ImageAnalysisController.analyzeImage
           (the_ImageProcessor Toy.world Toy.config)
           (the_OpenRouterService Toy.world Toy.config)
           {| source := source; model := None; prompt := None |}
           initial_state) in
  handle "https://host/missing.png"
  = Ok (Failure
          {| code := "IMAGE_PROCESSING_ERROR";
             message :=
               "Image processing failed: Failed to load image from source: https://host/missing.png";
             details :=
               Some (DetailsCause
                       (Some "Image processing failed: Failed to load image from URL: https://host/missing.png")) |}) /\
  handle "missing.png"
  = Ok (Failure
          {| code := "ANALYSIS_ERROR";
             message :=
               "Vision analysis failed: Unexpected error during vision analysis";
             details :=
               Some (DetailsCause
                       (Some "Image not found: File not found: missing.png")) |}).
Proof.
  intros handle. subst handle. cbv beta. split.
  - destruct (ImageProcessor.loadImage Toy.world Toy.config
                "https://host/missing.png" initial_state)
      as [[src|e] s1] eqn:Hload; [vm_compute in Hload; discriminate|].
    rewrite (controller_load_failure_response Toy.world Toy.config
               {| source := "https://host/missing.png"; model := None;
                  prompt := None |} initial_state s1 e
               ltac:(discriminate) Hload).
    vm_compute in Hload. injection Hload as <- _. reflexivity.
  - destruct (ImageProcessor.loadImage Toy.world Toy.config "missing.png"
                initial_state) as [[src|e] s1] eqn:Hload;
      [vm_compute in Hload; discriminate|].
    rewrite (controller_load_failure_response Toy.world Toy.config
               {| source := "missing.png"; model := None; prompt := None |}
               initial_state s1 e ltac:(discriminate) Hload).
    vm_compute in Hload. injection Hload as <- _. reflexivity.
Defined.

(** ** Edge behaviour of the image functions *)

(** X8.  [prepareImageForAPI] on its edges.  Without image data it fails
    with the analysis error "Image data is required for analysis".  A
    decoder failure is thrown on as it is, unwrapped.  When the decoder
    surfaces no (or a zero) width or height, the original bytes are
    submitted as they are, not recompressed, still labelled
    [image/jpeg], and sharp's encoder is not involved. *)
Theorem prepare_edge_cases :
  forall (W : World) (imageSource : ImageSource.t) (s : State),
    (ImageSource.data imageSource = None ->
     OpenRouterService.prepareImageForAPI W imageSource s
     = (Throw (new_ImageAnalysisError "Image data is required for analysis"
                 None), s)) /\
    (forall data e,
        ImageSource.data imageSource = Some data ->
        sharp_metadata W data = Throw e ->
        OpenRouterService.prepareImageForAPI W imageSource s = (Throw e, s)) /\
    (forall data m,
        ImageSource.data imageSource = Some data ->
        sharp_metadata W data = Ok m ->
        Sharp.width m = None \/ Sharp.width m = Some 0 \/
        Sharp.height m = None \/ Sharp.height m = Some 0 ->
        OpenRouterService.prepareImageForAPI W imageSource s
        = (Ok ("data:image/jpeg;base64," ++ toString_base64 data), s)).
Proof.
  intros W imageSource s. unfold OpenRouterService.prepareImageForAPI.
  split; [|split].
  - now intros ->.
  - intros data e -> He. run_io. now rewrite He.
  - intros data m -> Hm Hdims. run_io. rewrite Hm.
    assert (Hc : truthy_num (Sharp.width m) && truthy_num (Sharp.height m)
                 = false).
    { destruct Hdims as [-> | [-> | [-> | ->]]]; cbn;
        rewrite ?andb_false_r; reflexivity. }
    now rewrite Hc.
Qed.

(** A source without data, bytes that are no image, and a buffer whose
    decoder surfaces nothing. *)
Lemma prepare_edge_cases_witness :
  failure_message
    (OpenRouterService.prepareImageForAPI Toy.world (Toy.loaded None)
       initial_state)
  = Some "Vision analysis failed: Image data is required for analysis" /\
  failure_class
    (OpenRouterService.prepareImageForAPI Toy.world
       (Toy.loaded (Some Toy.json_bytes)) initial_state)
  = Some PlainError /\
  OpenRouterService.prepareImageForAPI Toy.world
    (Toy.loaded (Some [Byte.x00; Byte.x4d; Byte.x61])) initial_state
  = (Ok "data:image/jpeg;base64,AE1h", initial_state).
Proof.
  refine (conj _ (conj _ _)).
  - now rewrite (proj1 (prepare_edge_cases Toy.world (Toy.loaded None)
                          initial_state) eq_refl).
  - now rewrite (proj1 (proj2 (prepare_edge_cases Toy.world
                                 (Toy.loaded (Some Toy.json_bytes))
                                 initial_state)) _ _ eq_refl eq_refl).
  - exact (proj2 (proj2 (prepare_edge_cases Toy.world
                           (Toy.loaded (Some [Byte.x00; Byte.x4d; Byte.x61]))
                           initial_state)) _ _ eq_refl eq_refl
             (or_introl eq_refl)).
Defined.






(** X10.  Failures and degenerate bounds of [optimizeImage].  Every
    failure is the processing error "Failed to optimize image" and leaves
    the state as it was.  Bounds that are absent or zero are no bounds:
    the call behaves as the call without bounds.  As soon as one bound is
    non-zero, a bound that is given but not positive makes the call fail. *)
Theorem optimize_degenerate_bounds :
  forall (W : World) (config : AppConfig) (data : Buffer)
         (maxWidth maxHeight : option Z) (s : State),
    let run :=
      ImageProcessor.optimizeImage W config data maxWidth maxHeight s in
    (forall e s',
        run = (Throw e, s') ->
        s' = s /\
        exists cause,
          e = new_ImageProcessingError "Failed to optimize image" cause) /\
    ((maxWidth = None \/ maxWidth = Some 0) ->
     (maxHeight = None \/ maxHeight = Some 0) ->
     run = ImageProcessor.optimizeImage W config data None None s) /\
    (truthy_num maxWidth || truthy_num maxHeight = true ->
     (exists x, maxWidth = Some x /\ x <= 0) \/
     (exists y, maxHeight = Some y /\ y <= 0) ->
     failure_class run = Some ImageProcessingError).
Proof.
  intros W config data maxWidth maxHeight s run. subst run.
  split; [|split].
  - intros e s'. unfold ImageProcessor.optimizeImage, try_catch.
    match goal with
    | |- context [let (_, _) := ?body s in _] =>
        destruct (body s) as [[o|e0] s0] eqn:Hbody
    end; [discriminate|].
    intros [= <- <-]. split; [|eauto].
    revert Hbody. unfold ImageProcessor.sharp_resize. run_io.
    repeat break_inner; now intros [= _ <-].
  - intros Hw Hh.
    assert (Hnone : truthy_num maxWidth || truthy_num maxHeight = false).
    { destruct Hw as [-> | ->], Hh as [-> | ->]; reflexivity. }
    unfold ImageProcessor.optimizeImage. now rewrite Hnone.
  - intros Hany Hbad.
    assert (Hinvalid : Sharp.valid_dimension maxWidth = false \/
                       (Sharp.valid_dimension maxWidth = true /\
                        Sharp.valid_dimension maxHeight = false)).
    { destruct (Sharp.valid_dimension maxWidth) eqn:Hvx; [right|now left].
      split; [reflexivity|].
      destruct Hbad as [(x & -> & Hx) | (y & -> & Hy)].
      - cbn in Hvx. apply Z.ltb_lt in Hvx. lia.
      - cbn. apply Z.ltb_ge. lia. }
    unfold ImageProcessor.optimizeImage, ImageProcessor.sharp_resize.
    run_io. rewrite Hany.
    destruct Hinvalid as [-> | [-> ->]]; reflexivity.
Qed.

(** Zero bounds are ignored; a zero width beside a height is refused. *)
Lemma optimize_degenerate_bounds_witness :
  let picture := Toy.encode Byte.x89 3 2 in
  ImageProcessor.optimizeImage Toy.world Toy.config picture (Some 0) None
    initial_state
  = ImageProcessor.optimizeImage Toy.world Toy.config picture None None
      initial_state /\
  failure_class
    (ImageProcessor.optimizeImage Toy.world Toy.config picture (Some 0)
       (Some 100) initial_state) = Some ImageProcessingError.
Proof.
  intros picture. split.
  - exact (proj1 (proj2 (optimize_degenerate_bounds Toy.world Toy.config
                           picture (Some 0) None initial_state))
             (or_intror eq_refl) (or_introl eq_refl)).
  - refine (proj2 (proj2 (optimize_degenerate_bounds Toy.world Toy.config
                            picture (Some 0) (Some 100) initial_state))
              eq_refl (or_introl (ex_intro _ 0 (conj eq_refl _)))).
    lia.
Defined.

(** X11.  For a local path, [loadImage] reports "not found" for every
    failure whose message contains the text ENOENT, whatever failed: a
    failing file access or read whose error message contains it, and also
    a file that exists, is read, and fails validation, when its path
    contains that text. *)
Theorem load_reports_not_found_on_ENOENT_text :
  forall (W : World) (config : AppConfig) (source : string) (s : State),
    ImageProcessor.isUrl W source = false ->
    let not_found :=
      (Throw (new_ImageNotFoundError ("File not found: " ++ source)), s) in
    (forall e,
        fs_access W source = Throw e \/
        (fs_access W source = Ok tt /\ readFileSync W source = Throw e) ->
        instanceof_Error e = true ->
        includes "ENOENT" (error_message e) = true ->
        ImageProcessor.loadImage W config source s = not_found) /\
    (forall data,
        fs_access W source = Ok tt -> readFileSync W source = Ok data ->
        passes_validation W config data = false ->
        includes "ENOENT" source = true ->
        ImageProcessor.loadImage W config source s = not_found).
Proof.
  intros W config source s Hfile not_found. subst not_found.
  unfold ImageProcessor.loadImage. rewrite Hfile.
  unfold ImageProcessor.loadFromFile. run_io. split.
  - intros e Hfail Herr Hmsg.
    destruct Hfail as [Hacc | [Hacc Hread]].
    + rewrite Hacc. cbv beta iota. now rewrite Herr, Hmsg.
    + rewrite Hacc, Hread. cbv beta iota. now rewrite Herr, Hmsg.
  - intros data Hacc Hread Hval Hpath.
    rewrite Hacc, Hread, validateImage_run, Hval. cbn [negb].
    cbv beta iota.
    now rewrite includes_ENOENT_in_invalid_file, Hpath.
Qed.

(** A text file named [/tmp/ENOENT.json] is reported as not found. *)
Lemma load_reports_not_found_on_ENOENT_text_witness :
  ImageProcessor.loadImage Toy.world Toy.config "/tmp/ENOENT.json"
    initial_state
  = (Throw (new_ImageNotFoundError "File not found: /tmp/ENOENT.json"),
     initial_state).
Proof.
  exact (proj2 (load_reports_not_found_on_ENOENT_text Toy.world Toy.config
                  "/tmp/ENOENT.json" initial_state eq_refl)
           Toy.json_bytes eq_refl eq_refl eq_refl eq_refl).
Defined.

(** ** Conversion to base64 *)

Lemma ascii_toLowerCase_idempotent (c : ascii) :
  ascii_toLowerCase (ascii_toLowerCase c) = ascii_toLowerCase c.
Proof. destruct c as [[] [] [] [] [] [] [] []]; reflexivity. Qed.

Lemma toLowerCase_idempotent (s : string) :
  toLowerCase (toLowerCase s) = toLowerCase s.
Proof.
  induction s as [|c s IH]; [reflexivity|].
  cbn [toLowerCase]. now rewrite ascii_toLowerCase_idempotent, IH.
Qed.

Lemma toLowerCase_empty (s : string) : toLowerCase s = "" <-> s = "".
Proof. destruct s; cbn [toLowerCase]; split; congruence. Qed.

Lemma target_encoder_ignores_case (config : AppConfig) (f : string) :
  ImageEncoding.target_encoder config (toLowerCase f)
  = ImageEncoding.target_encoder config f.
Proof.
  unfold ImageEncoding.target_encoder. now rewrite toLowerCase_idempotent.
Qed.

(** A format with an encoder is neither empty nor [original]. *)
Lemma target_encoder_converts (config : AppConfig) (f : string)
    (e : Sharp.Encoder) :
  ImageEncoding.target_encoder config f = Some e ->
  truthy_str (Some f) && negb (String.eqb (str_or (Some f) "") "original")
  = true /\
  str_or (Some f) "" = f.
Proof.
  intros He. cbn [truthy_str str_or].
  destruct (String.eqb_spec f "") as [-> | Hne]; [discriminate He|].
  destruct (String.eqb_spec f "original") as [-> | Hno];
    [discriminate He|].
  now split.
Qed.

(** X12.  [convertToBase64] keeps or transcodes.  Every failure is the
    processing error "Failed to convert image to base64" and leaves the
    state as it was.  Without a format, with the empty format and with
    [original] the result is the base64 text of the very bytes given,
    whatever they are, and sharp is not involved.  A format the switch
    does not know gives the same text, provided sharp's constructor
    accepts the bytes.  The letter case of the format is ignored, except
    that only the lower-case spelling of [original] bypasses sharp. *)
Theorem convert_keeps_or_transcodes :
  forall (W : World) (config : AppConfig)
         (sharp_constructor : Buffer -> Result unit)
         (data : Buffer) (format : option string) (s : State),
    let convert := ImageEncoding.convertToBase64 W config sharp_constructor in
    (forall e s',
        convert data format s = (Throw e, s') ->
        s' = s /\
        exists cause,
          e = new_ImageProcessingError "Failed to convert image to base64"
                cause) /\
    (format = None \/ format = Some "" \/ format = Some "original" ->
     convert data format s = (Ok (toString_base64 data), s)) /\
    (forall f,
        format = Some f ->
        sharp_constructor data = Ok tt ->
        ImageEncoding.target_encoder config f = None ->
        convert data format s = (Ok (toString_base64 data), s)) /\
    (forall f,
        format = Some f ->
        toLowerCase f <> "original" ->
        convert data format s = convert data (Some (toLowerCase f)) s).
Proof.
  intros W config ctor data format s convert. subst convert.
  split; [|split; [|split]].
  - intros e s'. unfold ImageEncoding.convertToBase64, try_catch.
    match goal with
    | |- context [let (_, _) := ?body s in _] =>
        destruct (body s) as [[o|e0] s0] eqn:Hbody
    end; [discriminate|].
    intros [= <- <-]. split; [|eauto].
    revert Hbody. run_io.
    repeat break_inner; now intros [= _ <-].
  - intros [-> | [-> | ->]]; reflexivity.
  - intros f -> Hctor Hnone.
    unfold ImageEncoding.convertToBase64. run_io.
    destruct (truthy_str (Some f)
              && negb (String.eqb (str_or (Some f) "") "original"))
      eqn:Hconv; [|reflexivity].
    assert (Hf : str_or (Some f) "" = f).
    { cbn [str_or]. destruct (String.eqb_spec f "") as [-> | _];
        [discriminate Hconv | reflexivity]. }
    now rewrite Hctor, Hf, Hnone.
  - intros f -> Hlow.
    destruct (String.eqb_spec f "") as [-> | Hne]; [reflexivity|].
    assert (Hlne : toLowerCase f <> "") by now rewrite toLowerCase_empty.
    assert (Hno : f <> "original") by (intros ->; now apply Hlow).
    unfold ImageEncoding.convertToBase64. cbn [truthy_str str_or].
    apply String.eqb_neq in Hne, Hlne, Hno, Hlow.
    now rewrite Hne, Hlne, Hno, Hlow, target_encoder_ignores_case.
Qed.

(** sharp's constructor as the toy world has it: an empty buffer is
    refused. *)
Lemma convert_keeps_or_transcodes_witness :
  let ctor (data : Buffer) :=
    match data with
    | [] => Throw (new_Error "Input Buffer is empty")
    | _ => Ok tt
    end in
  let convert := ImageEncoding.convertToBase64 Toy.world Toy.config ctor in
  convert Toy.json_bytes (Some "original") initial_state
  = (Ok "eyJhIjoxfQ==", initial_state) /\
  convert Toy.json_bytes (Some "TIFF") initial_state
  = (Ok "eyJhIjoxfQ==", initial_state) /\
  convert (Toy.encode Byte.x89 3 2) (Some "JPG") initial_state
  = convert (Toy.encode Byte.x89 3 2) (Some "jpg") initial_state.
Proof.
  intros ctor convert.
  pose proof (convert_keeps_or_transcodes Toy.world Toy.config ctor
                Toy.json_bytes (Some "original") initial_state)
    as (_ & Hkeep & _).
  pose proof (convert_keeps_or_transcodes Toy.world Toy.config ctor
                Toy.json_bytes (Some "TIFF") initial_state)
    as (_ & _ & Hunknown & _).
  pose proof (convert_keeps_or_transcodes Toy.world Toy.config ctor
                (Toy.encode Byte.x89 3 2) (Some "JPG") initial_state)
    as (_ & _ & _ & Hcase).
  split; [|split].
  - exact (Hkeep (or_intror (or_intror eq_refl))).
  - exact (Hunknown "TIFF" eq_refl eq_refl eq_refl).
  - refine (Hcase "JPG" eq_refl _). discriminate.
Defined.

(** X13.  What a successful conversion to a known format returns: the
    base64 text of bytes that decode to an image of the requested format
    ([jpg] meaning [jpeg]) with the width and height of the input. *)
Theorem convert_output_decodes :
  forall (W : World) (config : AppConfig)
         (sharp_constructor : Buffer -> Result unit)
         (data : Buffer) (f : string) (s s' : State) (encoded : string)
         (m : Sharp.Metadata) (w h : Z) (e : Sharp.Encoder),
    sharp_output_faithful W ->
    sharp_metadata W data = Ok m ->
    Sharp.width m = Some w -> Sharp.height m = Some h ->
    ImageEncoding.target_encoder config f = Some e ->
    ImageEncoding.convertToBase64 W config sharp_constructor data (Some f) s
    = (Ok encoded, s') ->
    exists out m',
      encoded = toString_base64 out /\
      sharp_metadata W out = Ok m' /\
      Sharp.width m' = Some w /\ Sharp.height m' = Some h /\
      Sharp.format m'
      = Some (if String.eqb (toLowerCase f) "jpg" then "jpeg"
              else toLowerCase f) /\
      s' = s.
Proof.
  intros W config ctor data f s s' encoded m w h e
         Hlaw Hm Hw Hh He Hrun.
  destruct (target_encoder_converts _ _ _ He) as [Hconv Hf].
  revert Hrun. unfold ImageEncoding.convertToBase64. run_io.
  rewrite Hconv, Hf, He.
  destruct (ctor data) as [[]|e0]; [|discriminate].
  destruct (sharp_toBuffer W _ data) as [out|e0] eqn:Hout; [|discriminate].
  intros [= <- <-].
  destruct (Hlaw _ _ _ _ _ _ Hm Hw Hh Hout) as (m' & Hm' & Hw' & Hh' & Hf').
  exists out, m'. repeat split; try assumption.
  rewrite Hf'. unfold Sharp.output_format. cbn [Sharp.encoder]. f_equal.
  revert He. unfold ImageEncoding.target_encoder. cbv zeta.
  destruct (String.eqb_spec (toLowerCase f) "jpeg") as [-> | _];
    [now intros [= <-]|].
  destruct (String.eqb_spec (toLowerCase f) "jpg") as [-> | _];
    [now intros [= <-]|].
  cbn [orb].
  destruct (String.eqb_spec (toLowerCase f) "png") as [-> | _];
    [now intros [= <-]|].
  destruct (String.eqb_spec (toLowerCase f) "webp") as [-> | _];
    [now intros [= <-] | discriminate].
Qed.

(** A 3 by 2 PNG converted to [JPG]. *)
Lemma convert_output_decodes_witness :
  let convert :=
    ImageEncoding.convertToBase64 Toy.world Toy.config (fun _ => Ok tt) in
  exists encoded out m',
    fst (convert (Toy.encode Byte.x89 3 2) (Some "JPG") initial_state)
    = Ok encoded /\
    encoded = toString_base64 out /\
    sharp_metadata Toy.world out = Ok m' /\
    Sharp.width m' = Some 3 /\ Sharp.height m' = Some 2 /\
    Sharp.format m' = Some "jpeg".
Proof.
  intros convert. subst convert.
  destruct (ImageEncoding.convertToBase64 Toy.world Toy.config
              (fun _ => Ok tt) (Toy.encode Byte.x89 3 2) (Some "JPG")
              initial_state)
    as [[encoded|e] s'] eqn:Hrun; [|vm_compute in Hrun; discriminate].
  destruct (convert_output_decodes Toy.world Toy.config (fun _ => Ok tt)
              (Toy.encode Byte.x89 3 2) "JPG" initial_state s' encoded
              {| Sharp.format := Some "png"; Sharp.width := Some 3;
                 Sharp.height := Some 2; Sharp.hasAlpha := Some false;
                 Sharp.space := Some "srgb"; Sharp.density := Some 72 |}
              3 2 (Sharp.jpeg 85 false) toy_output_faithful
              eq_refl eq_refl eq_refl eq_refl Hrun)
    as (out & m' & Henc & Hm' & Hw' & Hh' & Hf' & _).
  exists encoded, out, m'. repeat split; assumption.
Defined.

(** ** Log levels *)

Lemma ascii_upper_of_lower (c : ascii) :
  ascii_toUpperCase (ascii_toLowerCase c) = ascii_toUpperCase c.
Proof. destruct c as [[] [] [] [] [] [] [] []]; reflexivity. Qed.

Lemma ascii_lower_of_upper (c : ascii) :
  ascii_toLowerCase (ascii_toUpperCase c) = ascii_toLowerCase c.
Proof. destruct c as [[] [] [] [] [] [] [] []]; reflexivity. Qed.

Lemma upper_of_lower (s : string) :
  toUpperCase (toLowerCase s) = toUpperCase s.
Proof.
  induction s as [|c s IH]; [reflexivity|].
  cbn [toLowerCase toUpperCase]. now rewrite ascii_upper_of_lower, IH.
Qed.

Lemma lower_of_upper (s : string) :
  toLowerCase (toUpperCase s) = toLowerCase s.
Proof.
  induction s as [|c s IH]; [reflexivity|].
  cbn [toLowerCase toUpperCase]. now rewrite ascii_lower_of_upper, IH.
Qed.

(** Comparing the lower case with a lower-case word is comparing the
    upper case with the word in upper case. *)
Lemma eqb_lower_upper (s word : string) :
  toLowerCase (toUpperCase word) = word ->
  String.eqb (toLowerCase s) word
  = String.eqb (toUpperCase s) (toUpperCase word).
Proof.
  intros Hword.
  destruct (String.eqb_spec (toLowerCase s) word) as [Hl | Hl],
           (String.eqb_spec (toUpperCase s) (toUpperCase word))
             as [Hu | Hu]; try reflexivity; exfalso.
  - apply Hu. now rewrite <- Hl, upper_of_lower.
  - apply Hl. now rewrite <- lower_of_upper, Hu.
Qed.

(** Only a digit has a digit as its upper case. *)
Lemma toUpperCase_digit (s d : string) :
  In d ["0"; "1"; "2"; "3"] -> toUpperCase s = d -> s = d.
Proof.
  intros Hd Hs.
  destruct s as [|c [|c' s]]; cbn [toUpperCase] in Hs.
  - exact Hs.
  - cbn in Hd.
    destruct Hd as [<- | [<- | [<- | [<- | []]]]];
      injection Hs as Hc;
      destruct c as [[] [] [] [] [] [] [] []];
      solve [reflexivity | discriminate Hc].
  - cbn in Hd.
    destruct Hd as [<- | [<- | [<- | [<- | []]]]]; discriminate Hs.
Qed.

(** X14.  The two readers of a level name, [Logger.fromLevel] and
    [Container.mapLogLevel], agree on every string except the four digits
    [0] to [3]: both ignore the letter case and both fall back to INFO.
    On a digit [mapLogLevel] falls back to INFO, while [fromLevel] finds
    the digit among the keys of the enum object and stores a level name
    as threshold; that logger filters nothing, so it writes DEBUG
    calls, which a logger at INFO drops. *)
Theorem fromLevel_agrees_with_mapLogLevel :
  forall (levelStr : string) (enableConsole : bool),
    (~ In levelStr ["0"; "1"; "2"; "3"] ->
     Logger.level (Logger.fromLevel levelStr enableConsole)
     = Logger.Numeric (Container.mapLogLevel levelStr)) /\
    (In levelStr ["0"; "1"; "2"; "3"] ->
     Container.mapLogLevel levelStr = Logger.INFO /\
     forall (now : Z) (toISOString : Z -> string)
            (JSON_stringify : JsVal -> string) (l : Logger.LogLevel)
            (message : string) (context : option string) (metadata : JsVal),
       Logger.log now toISOString JSON_stringify
         (Logger.fromLevel levelStr true) l message context metadata <> [] /\
       Logger.log now toISOString JSON_stringify
         {| Logger.level := Logger.Numeric (Container.mapLogLevel levelStr);
            Logger.enableConsole := true;
            Logger.context := None |}
         Logger.DEBUG message context metadata = []).
Proof.
  intros levelStr enableConsole. split.
  - intros Hdigit.
    unfold Logger.fromLevel, Container.mapLogLevel, Logger.LogLevel_get.
    cbn [Logger.level]. cbv zeta.
    rewrite (eqb_lower_upper levelStr "debug" eq_refl),
            (eqb_lower_upper levelStr "info" eq_refl),
            (eqb_lower_upper levelStr "warn" eq_refl),
            (eqb_lower_upper levelStr "error" eq_refl).
    change (toUpperCase "debug") with "DEBUG".
    change (toUpperCase "info") with "INFO".
    change (toUpperCase "warn") with "WARN".
    change (toUpperCase "error") with "ERROR".
    destruct (String.eqb (toUpperCase levelStr) "DEBUG"); [reflexivity|].
    destruct (String.eqb (toUpperCase levelStr) "INFO"); [reflexivity|].
    destruct (String.eqb (toUpperCase levelStr) "WARN"); [reflexivity|].
    destruct (String.eqb (toUpperCase levelStr) "ERROR"); [reflexivity|].
    assert (Hno : forall d, In d ["0"; "1"; "2"; "3"] ->
                            String.eqb (toUpperCase levelStr) d = false).
    { intros d Hd. apply String.eqb_neq. intros Hs.
      apply (toUpperCase_digit _ _ Hd) in Hs. now subst d. }
    rewrite !Hno; cbn; auto 6.
  - intros Hdigit. cbn in Hdigit.
    destruct Hdigit as [<- | [<- | [<- | [<- | []]]]];
      (split; [reflexivity|]); intros; split;
      solve [discriminate | reflexivity].
Qed.

(** [Warn] is WARN for both; [2] is a threshold that filters nothing. *)
Lemma fromLevel_agrees_with_mapLogLevel_witness :
  Logger.level (Logger.fromLevel "Warn" true)
  = Logger.Numeric Logger.WARN /\
  Logger.log 0 (fun _ => "T") (fun _ => "{}") (Logger.fromLevel "2" true)
    Logger.DEBUG "m" None JUndefined
  = [{| Logger.console_method := Logger.DEBUG;
        Logger.console_line := "T DEBUG: m" |}].
Proof.
  split.
  - refine (proj1 (fromLevel_agrees_with_mapLogLevel "Warn" true) _).
    cbn. intros [H | [H | [H | [H | []]]]]; discriminate H.
  - pose proof (proj2 (proj2 (fromLevel_agrees_with_mapLogLevel "2" true)
                         (or_intror (or_intror (or_introl eq_refl))))
                  0 (fun _ => "T") (fun _ => "{}") Logger.DEBUG "m" None
                  JUndefined) as [Hwritten _].
    destruct (Logger.log 0 (fun _ => "T") (fun _ => "{}")
                (Logger.fromLevel "2" true) Logger.DEBUG "m" None JUndefined)
      as [|call rest] eqn:Hlog; [now elim Hwritten|].
    vm_compute in Hlog. now injection Hlog as <- <-.
Defined.

(** ** The tool handler *)

(** X15.  The answer of the [analyze_image] tool is the outcome of
    [execute].  For arguments with a non-empty string [source] (and a
    [model] and a [prompt] that are strings or falsy, as the request type
    declares), whatever the collaborators do: when [execute] succeeds the
    answer is the JSON text of its result, without the identifier; when
    [execute] fails the answer is an error whose text is "Error: "
    followed by the message of the failure, and nothing else of the
    failure.  The handler itself never fails, and the controller's own
    "Image source is required" and "unexpected error" responses cannot
    arise. *)
Theorem tool_answer_follows_execute :
  forall (imageProcessor : IImageProcessor)
         (imageAnalysisService : IImageAnalysisService)
         (JSON_stringify : McpServer.AnalysisReport -> string)
         (args : JsVal) (src : string) (s : State),
    js_prop args "source" = JStr src -> src <> "" ->
    McpServer.string_or_falsy (js_prop args "model") = true ->
    McpServer.string_or_falsy (js_prop args "prompt") = true ->
    McpServer.handleAnalyzeImage imageProcessor imageAnalysisService
      JSON_stringify args s
    = match AnalyzeImageUseCase.execute imageProcessor imageAnalysisService
              src (McpServer.optional_string (js_prop args "model"))
              (McpServer.optional_string (js_prop args "prompt")) s with
      | (Ok result, s') =>
          (Ok {| McpServer.content :=
                   [{| McpServer.type := "text";
                       McpServer.text := JSON_stringify {|
                         McpServer.analysis := ImageAnalysis.analysis result;
                         McpServer.model := ImageAnalysis.model result;
                         McpServer.timestamp :=
                           ImageAnalysis.timestamp result;
                         McpServer.metadata :=
                           ImageSource.metadata
                             (ImageAnalysis.imageSource result);
                         McpServer.source :=
                           (ImageSource.type
                              (ImageAnalysis.imageSource result),
                            ImageSource.path
                              (ImageAnalysis.imageSource result));
                         McpServer.usage := ImageAnalysis.usage result |} |}];
                 McpServer.isError := None |}, s')
      | (Throw e, s') =>
          (Ok {| McpServer.content :=
                   [{| McpServer.type := "text";
                       McpServer.text := "Error: " ++ error_message e |}];
                 McpServer.isError := Some true |}, s')
      end.
Proof.
  intros ip svc js args src s Hsrc Hne _ _.
  destruct args as [| | | | |items|fields]; try discriminate Hsrc.
  unfold McpServer.handleAnalyzeImage, ImageAnalysisController.analyzeImage.
  run_io. rewrite Hsrc.
  apply String.eqb_neq in Hne.
  cbn [truthy typeof negb orb McpServer.string_value
       ImageAnalysisController.source ImageAnalysisController.model
       ImageAnalysisController.prompt].
  change (String.eqb "object" "object") with true.
  change (String.eqb "string" "string") with true.
  rewrite Hne. cbn [negb orb]. cbv beta iota.
  destruct (AnalyzeImageUseCase.execute ip svc src
              (McpServer.optional_string (js_prop (JObj fields) "model"))
              (McpServer.optional_string (js_prop (JObj fields) "prompt")) s)
    as [[result|e] s'] eqn:Hexec; cbv beta iota.
  - reflexivity.
  - apply execute_failure_closed in Hexec.
    rewrite handleError_by_class.
    destruct Hexec as [Hc | Hc]; apply instanceof_class in Hc;
      rewrite Hc; reflexivity.
Qed.

(** A small PNG is described; a missing file is an analysis failure. *)
Lemma tool_answer_follows_execute_witness :
  let tool :=
    McpServer.handleAnalyzeImage
      (the_ImageProcessor Toy.world Toy.config)
      (the_OpenRouterService Toy.world Toy.config)
      (fun report => match McpServer.analysis report with
                     | JStr a => a
                     | _ => "?"
                     end) in
  let answer (text : string) (isError : option bool) :=
    {| McpServer.content :=
         [{| McpServer.type := "text"; McpServer.text := text |}];
       McpServer.isError := isError |} in
  fst (tool (JObj [("source", JStr "small.png"); ("model", JNull)])
         initial_state)
  = Ok (answer "A cat." None) /\
  fst (tool (JObj [("source", JStr "missing.png")]) initial_state)
  = Ok (answer
          "Error: Vision analysis failed: Unexpected error during vision analysis"
          (Some true)).
Proof.
  intros tool answer. subst tool answer. cbv beta. split.
  - rewrite (tool_answer_follows_execute _ _ _
               (JObj [("source", JStr "small.png"); ("model", JNull)])
               "small.png" initial_state
               eq_refl ltac:(discriminate) eq_refl eq_refl).
    vm_compute. reflexivity.
  - rewrite (tool_answer_follows_execute _ _ _
               (JObj [("source", JStr "missing.png")])
               "missing.png" initial_state
               eq_refl ltac:(discriminate) eq_refl eq_refl).
    vm_compute. reflexivity.
Defined.

(** X16.  Arguments the tool refuses.  Arguments that are no object
    ([undefined], [null], a boolean, a number, a string) are answered
    with "Invalid arguments provided"; an object or array whose [source]
    is absent, is no string or is the empty string is answered with
    "Source parameter is required and must be a string".  In both cases
    the answer is an error, the state is as it was, and the
    collaborators are not called. *)
Theorem tool_refuses_malformed_arguments :
  forall (imageProcessor : IImageProcessor)
         (imageAnalysisService : IImageAnalysisService)
         (JSON_stringify : McpServer.AnalysisReport -> string)
         (args : JsVal) (s : State),
    let refused (message : string) :=
      (Ok {| McpServer.content :=
               [{| McpServer.type := "text";
                   McpServer.text := "Error: " ++ message |}];
             McpServer.isError := Some true |}, s) in
    let answered :=
      McpServer.handleAnalyzeImage imageProcessor imageAnalysisService
        JSON_stringify args s in
    match args with
    | JObj _ | JArr _ =>
        match js_prop args "source" with
        | JStr (String _ _) => True
        | _ =>
            answered
            = refused "Source parameter is required and must be a string"
        end
    | _ => answered = refused "Invalid arguments provided"
    end.
Proof.
  intros ip svc js args s refused answered. subst refused answered.
  destruct args as [| |b|n|t|items|fields]; try reflexivity.
  - now destruct b.
  - unfold McpServer.handleAnalyzeImage. run_io. cbn [truthy typeof].
    change (String.eqb "number" "object") with false.
    now rewrite orb_true_r.
  - unfold McpServer.handleAnalyzeImage. run_io. cbn [truthy typeof].
    change (String.eqb "string" "object") with false.
    now rewrite orb_true_r.
  - cbn [js_prop].
    destruct (lookup_field "source" fields) as [| |b|n|t|items|fields']
      eqn:Hsource;
      try (unfold McpServer.handleAnalyzeImage; run_io;
           cbn [js_prop]; rewrite Hsource; reflexivity).
    + unfold McpServer.handleAnalyzeImage; run_io;
        cbn [js_prop]; rewrite Hsource. now destruct b.
    + unfold McpServer.handleAnalyzeImage; run_io;
        cbn [js_prop]; rewrite Hsource. cbn [truthy typeof].
      change (String.eqb "number" "string") with false.
      now rewrite orb_true_r.
    + destruct t; [|exact I].
      unfold McpServer.handleAnalyzeImage; run_io;
        cbn [js_prop]; rewrite Hsource. reflexivity.
Qed.
